(** * sportmode_debug: connection retry, cooperative shutdown and the
      command sequence of [examples/data_channel/sportmode/sportmode_debug.py]

    The script is embedded as computations of a small state-and-outcome
    monad: a computation takes the process state and gives back a Python
    statement outcome (normal completion, [break], [return], a raised
    exception) with the new state.  The driver library, the signals that
    reach the process and the JSON parser are not part of the script; they
    are parameters of the development. *)

From Stdlib Require Import List String ZArith QArith Bool Lia Arith.
Import ListNotations.
Open Scope string_scope.
Open Scope list_scope.
Open Scope Z_scope.

(** ** Python values and exceptions *)

(** The values the script handles: request payloads are dict literals and a
    response of the driver is a nested dict.  A dict is the list of its
    items (keys are unique, as in a Python dict). *)
#[warnings="-register-all"]
Inductive pyobj : Type :=
| PyNone
| PyBool (b : bool)
| PyInt (z : Z)
| PyFloat (q : Q)
| PyStr (s : string)
| PyList (l : list pyobj)
| PyDict (items : list (string * pyobj)).

(** The exception classes that the handlers of the script tell apart.  The
    last three derive from [BaseException] only. *)
Inductive exn : Type :=
| TimeoutError
| ConnectionError
| KeyError (key : string)
| TypeError
| JSONDecodeError
| UnboundLocalError (var : string)
| OtherException (name : string)
| KeyboardInterrupt
| SystemExit (code : Z)
| CancelledError.

(** [isinstance(e, Exception)] *)
Definition is_Exception (e : exn) : bool :=
  match e with
  | KeyboardInterrupt | SystemExit _ | CancelledError => false
  | _ => true
  end.

(** [isinstance(e, asyncio.TimeoutError)] *)
Definition is_TimeoutError (e : exn) : bool :=
  match e with TimeoutError => true | _ => false end.

(** [isinstance(e, ConnectionError)] *)
Definition is_ConnectionError (e : exn) : bool :=
  match e with ConnectionError => true | _ => false end.

Fixpoint lookup (key : string) (items : list (string * pyobj)) : option pyobj :=
  match items with
  | [] => None
  | (k, v) :: rest => if String.eqb k key then Some v else lookup key rest
  end.

(** [o[key]] for a string key: only a dict can be subscripted by a string. *)
Definition getitem (o : pyobj) (key : string) : exn + pyobj :=
  match o with
  | PyDict items =>
      match lookup key items with
      | Some v => inr v
      | None => inl (KeyError key)
      end
  | _ => inl TypeError
  end.

(** [v == z] for an int literal [z] *)
Definition py_eq_int (v : pyobj) (z : Z) : bool :=
  match v with
  | PyInt n => n =? z
  | PyBool b => (if b then 1 else 0) =? z
  | PyFloat q => Qeq_bool q (inject_Z z)
  | _ => false
  end.

(** [v == s] for a str literal [s] *)
Definition py_eq_str (v : pyobj) (s : string) : bool :=
  match v with
  | PyStr t => String.eqb t s
  | _ => false
  end.

(** [range(n)] *)
Definition range (n : Z) : list Z := map Z.of_nat (seq 0 (Z.to_nat n)).

(** ** The shutdown flag *)

Inductive signum : Type := SIGINT | SIGTERM.

Record GracefulKiller : Type := { kill_now : bool }.

(** [GracefulKiller.__init__]: the flag starts false (the two handlers it
    installs are what makes [deliver] below call [_handle_signal]). *)
Definition GracefulKiller_init : GracefulKiller := {| kill_now := false |}.

(** [GracefulKiller._handle_signal] *)
Definition _handle_signal (self : GracefulKiller) (sig : signum) : GracefulKiller :=
  {| kill_now := true |}.

(** ** The driver, the world and the process state *)

(** A connection object of the driver, by what its operations answer: the
    [k]-th call of [connect()] completes ([None]) or raises; so does the
    wait for the data channel; the [k]-th call of [publish_request_new]
    returns a response or raises. *)
Record Go2WebRTCConnection : Type := {
  connect_outcome : nat -> option exn;
  wait_datachannel_open_outcome : option exn;
  publish_request_new_outcome : nat -> exn + pyobj
}.

(** What the script observes of its environment: what the constructor of
    the connection gives, and the signals that arrive while the script is
    suspended in its [k]-th [await].  A signal that arrives between two
    awaits is seen by the script exactly as one arriving during the next
    await, since the flag is only read after an await. *)
Record World : Type := {
  construct : exn + Go2WebRTCConnection;
  signals : nat -> list signum
}.

Inductive Handler : Type := HTimeout | HConnection | HUnexpected | HFatal.

(** The observable actions, in the order they happen. *)
Inductive Event : Type :=
| EConnect                                   (* conn.connect() is called *)
| ESleep (d : Z)                             (* asyncio.sleep(d) *)
| EWaitOpen (timeout : Z)                    (* wait_datachannel_open(timeout) *)
| EPublish (topic : string) (payload : pyobj) (* publish_request_new(topic, payload) *)
| ECheck (b : bool)                          (* killer.kill_now is read as b *)
| ESignal (sig : signum)                     (* _handle_signal runs *)
| ELogError (h : Handler) (e : exn)          (* logging.error in an except clause *)
| ECleanup.                                  (* the cleanup block is entered *)

(** The process state: the killer object, the counters that index the
    world, the two locals of [main] that outlive a statement ([conn], and
    [current_motion_switcher_mode], where [None] is an unbound local), and
    the actions so far. *)
Record State : Type := {
  killer : GracefulKiller;
  clock : nat;
  connects : nat;
  publishes : nat;
  conn : option Go2WebRTCConnection;
  current_motion_switcher_mode : option pyobj;
  trace : list Event
}.

Definition log (e : Event) (s : State) : State :=
  {| killer := killer s; clock := clock s; connects := connects s;
     publishes := publishes s; conn := conn s;
     current_motion_switcher_mode := current_motion_switcher_mode s;
     trace := trace s ++ [e] |}.

Definition tick (s : State) : State :=
  {| killer := killer s; clock := S (clock s); connects := connects s;
     publishes := publishes s; conn := conn s;
     current_motion_switcher_mode := current_motion_switcher_mode s;
     trace := trace s |}.

Definition count_connect (s : State) : State :=
  {| killer := killer s; clock := clock s; connects := S (connects s);
     publishes := publishes s; conn := conn s;
     current_motion_switcher_mode := current_motion_switcher_mode s;
     trace := trace s |}.

Definition count_publish (s : State) : State :=
  {| killer := killer s; clock := clock s; connects := connects s;
     publishes := S (publishes s); conn := conn s;
     current_motion_switcher_mode := current_motion_switcher_mode s;
     trace := trace s |}.

Definition set_killer (k : GracefulKiller) (s : State) : State :=
  {| killer := k; clock := clock s; connects := connects s;
     publishes := publishes s; conn := conn s;
     current_motion_switcher_mode := current_motion_switcher_mode s;
     trace := trace s |}.

Definition set_conn (c : option Go2WebRTCConnection) (s : State) : State :=
  {| killer := killer s; clock := clock s; connects := connects s;
     publishes := publishes s; conn := c;
     current_motion_switcher_mode := current_motion_switcher_mode s;
     trace := trace s |}.

Definition set_mode (m : option pyobj) (s : State) : State :=
  {| killer := killer s; clock := clock s; connects := connects s;
     publishes := publishes s; conn := conn s;
     current_motion_switcher_mode := m;
     trace := trace s |}.

(** A signal runs the handler: the handler prints and sets the flag. *)
Definition handle (s : State) (sig : signum) : State :=
  log (ESignal sig) (set_killer (_handle_signal (killer s) sig) s).

Definition deliver (sigs : list signum) (s : State) : State :=
  fold_left handle sigs s.

(** The state at the start of the process. *)
Definition boot : State :=
  {| killer := GracefulKiller_init; clock := 0; connects := 0; publishes := 0;
     conn := None; current_motion_switcher_mode := None; trace := [] |}.

(** ** Statement outcomes and the monad *)

Inductive outcome (R A : Type) : Type :=
| Normal (a : A)
| Break
| Returned (r : R)
| Raised (e : exn).
Arguments Normal {R A} a.
Arguments Break {R A}.
Arguments Returned {R A} r.
Arguments Raised {R A} e.

(** A computation inside a function whose [return] carries an [R]. *)
Definition M (R A : Type) : Type := State -> outcome R A * State.

Definition ret {R A} (a : A) : M R A := fun s => (Normal a, s).

Definition bind {R A B} (m : M R A) (k : A -> M R B) : M R B :=
  fun s =>
    match m s with
    | (Normal a, s') => k a s'
    | (Break, s') => (Break, s')
    | (Returned r, s') => (Returned r, s')
    | (Raised e, s') => (Raised e, s')
    end.

Declare Scope py_scope.
Delimit Scope py_scope with py.
Notation "x <- m ;; k" := (bind m (fun x => k))
  (at level 100, m at next level, right associativity) : py_scope.
Notation "m ;; k" := (bind m (fun _ => k))
  (at level 100, right associativity) : py_scope.
Open Scope py_scope.

Definition return_ {R A} (r : R) : M R A := fun s => (Returned r, s).
Definition break_ {R A} : M R A := fun s => (Break, s).
Definition raise {R A} (e : exn) : M R A := fun s => (Raised e, s).
Definition emit {R} (e : Event) : M R unit := fun s => (Normal tt, log e s).

(** An expression that may raise, used as a statement. *)
Definition lift {R A} (v : exn + A) : M R A :=
  match v with
  | inl e => raise e
  | inr a => ret a
  end.

(** [for x in xs: body] *)
Fixpoint for_ {R X} (xs : list X) (body : X -> M R unit) : M R unit :=
  match xs with
  | [] => ret tt
  | x :: rest =>
      fun s =>
        match body x s with
        | (Normal _, s') => for_ rest body s'
        | (Break, s') => (Normal tt, s')
        | (Returned r, s') => (Returned r, s')
        | (Raised e, s') => (Raised e, s')
        end
  end.

(** [try: body  except ...: ...]: [handlers e] is the first clause that
    matches [e], if any. *)
Definition try_except {R A} (body : M R A) (handlers : exn -> option (M R A)) : M R A :=
  fun s =>
    match body s with
    | (Raised e, s') =>
        match handlers e with
        | Some h => h s'
        | None => (Raised e, s')
        end
    | other => other
    end.

(** [try: body  finally: fin]: the finally block always runs; when it
    completes normally the outcome of the body stands, otherwise its own
    outcome replaces it. *)
Definition try_finally {R A} (body : M R A) (fin : M R unit) : M R A :=
  fun s =>
    match body s with
    | (o, s') =>
        match fin s' with
        | (Normal _, s'') => (o, s'')
        | (Break, s'') => (Break, s'')
        | (Returned r, s'') => (Returned r, s'')
        | (Raised e, s'') => (Raised e, s'')
        end
    end.

(** Calling a function with body [body]: a [return r] gives [r], and so
    does falling off the end with value [r]; [break] cannot leave a
    function body. *)
Definition call {R R'} (body : M R R) : M R' R :=
  fun s =>
    match body s with
    | (Normal r, s') => (Normal r, s')
    | (Returned r, s') => (Normal r, s')
    | (Break, s') => (Raised (OtherException "SyntaxError"), s')
    | (Raised e, s') => (Raised e, s')
    end.

Section Script.

(** The world the script runs in. *)
Variable w : World.

(** The two registries of [go2_webrtc_driver.constants] and [json.loads]
    belong to libraries; the script only looks keys up in them. *)
Variable RTC_TOPIC : string -> string.
Variable SPORT_CMD : string -> Z.
Variable json_loads : string -> option pyobj.

(** ** Primitive operations *)

(** The script is suspended in an await: the signals of this await are
    handled. *)
Definition suspend {R} : M R unit :=
  fun s => (Normal tt, deliver (signals w (clock s)) (tick s)).

(** The state after an await that logs [e]. *)
Definition awaited (e : Event) (s : State) : State :=
  deliver (signals w (clock s)) (tick (log e s)).

(** [await asyncio.sleep(d)] *)
Definition sleep {R} (d : Z) : M R unit :=
  emit (ESleep d) ;; suspend.

(** [await c.connect()] *)
Definition connect {R} (c : Go2WebRTCConnection) : M R unit :=
  emit EConnect ;;
  suspend ;;
  fun s =>
    match connect_outcome c (connects s) with
    | None => (Normal tt, count_connect s)
    | Some e => (Raised e, count_connect s)
    end.

(** [await c.datachannel.wait_datachannel_open(timeout=t)] *)
Definition wait_datachannel_open {R} (c : Go2WebRTCConnection) (t : Z) : M R unit :=
  emit (EWaitOpen t) ;;
  suspend ;;
  match wait_datachannel_open_outcome c with
  | None => ret tt
  | Some e => raise e
  end.

(** [await c.datachannel.pub_sub.publish_request_new(topic, payload)] *)
Definition publish_request_new {R} (c : Go2WebRTCConnection)
    (topic : string) (payload : pyobj) : M R pyobj :=
  emit (EPublish topic payload) ;;
  suspend ;;
  fun s =>
    match publish_request_new_outcome c (publishes s) with
    | inr response => (Normal response, count_publish s)
    | inl e => (Raised e, count_publish s)
    end.

(** [json.loads(v)] *)
Definition json_loads_obj (v : pyobj) : exn + pyobj :=
  match v with
  | PyStr s =>
      match json_loads s with
      | Some o => inr o
      | None => inl JSONDecodeError
      end
  | _ => inl TypeError
  end.

(** Reading [killer.kill_now] *)
Definition read_kill_now {R} : M R bool :=
  fun s => (Normal (kill_now (killer s)), log (ECheck (kill_now (killer s))) s).

(** [if killer.kill_now: return] *)
Definition check_kill_now : M unit unit :=
  b <- read_kill_now ;;
  if b then return_ tt else ret tt.

(** ** connect_with_retry (lines 25-41) *)

(** Lines 28-40: one round of the loop. *)
Definition attempt_round (c : Go2WebRTCConnection) (max_retries delay : Z)
    (attempt : Z) : M bool unit :=
  try_except
    (connect c ;;
     return_ true)
    (fun e =>
       if is_Exception e then
         Some (if attempt <? max_retries - 1
               then sleep delay
               else return_ false)
       else None).

Definition connect_with_retry {R} (c : Go2WebRTCConnection) (max_retries delay : Z)
    : M R bool :=
  call (
    for_ (range max_retries) (attempt_round c max_retries delay) ;;
    return_ false).

(** ** main (lines 43-197) *)

Definition and_then {A B} (v : exn + A) (f : A -> exn + B) : exn + B :=
  match v with
  | inl e => inl e
  | inr a => f a
  end.

(** [response['data']['header']['status']['code']] *)
Definition status_code (response : pyobj) : exn + pyobj :=
  and_then (getitem response "data") (fun d =>
  and_then (getitem d "header") (fun h =>
  and_then (getitem h "status") (fun st =>
  getitem st "code"))).

(** [json.loads(response['data']['data'])] *)
Definition response_data (response : pyobj) : exn + pyobj :=
  and_then (getitem response "data") (fun d =>
  and_then (getitem d "data") json_loads_obj).

Definition query_payload : pyobj :=
  PyDict [("api_id", PyInt 1001)].

Definition switch_payload (name : string) : pyobj :=
  PyDict [("api_id", PyInt 1002); ("parameter", PyDict [("name", PyStr name)])].

Definition hello_payload : pyobj :=
  PyDict [("api_id", PyInt (SPORT_CMD "Hello"))].

Definition move_payload (x : Q) : pyobj :=
  PyDict [("api_id", PyInt (SPORT_CMD "Move"));
          ("parameter", PyDict [("x", PyFloat x); ("y", PyInt 0); ("z", PyInt 0)])].

Definition standout_payload (data : bool) : pyobj :=
  PyDict [("api_id", PyInt (SPORT_CMD "StandOut"));
          ("parameter", PyDict [("data", PyBool data)])].

(** Reading the local [current_motion_switcher_mode] *)
Definition load_current_mode {R} : M R pyobj :=
  fun s =>
    match current_motion_switcher_mode s with
    | Some v => (Normal v, s)
    | None => (Raised (UnboundLocalError "current_motion_switcher_mode"), s)
    end.

Definition store_current_mode {R} (v : pyobj) : M R unit :=
  fun s => (Normal tt, set_mode (Some v) s).

(** Lines 70-79: the mode query; the local is assigned only under the
    test of the status code. *)
Definition query_motion_mode (c : Go2WebRTCConnection) : M unit unit :=
  response <- publish_request_new c (RTC_TOPIC "MOTION_SWITCHER") query_payload ;;
  code <- lift (status_code response) ;;
  if py_eq_int code 0 then
    data <- lift (response_data response) ;;
    name <- lift (getitem data "name") ;;
    store_current_mode name
  else ret tt.

(** Lines 81-91: the switch to "normal". *)
Definition switch_to_normal (c : Go2WebRTCConnection) : M unit unit :=
  mode <- load_current_mode ;;
  if negb (py_eq_str mode "normal") then
    publish_request_new c (RTC_TOPIC "MOTION_SWITCHER") (switch_payload "normal") ;;
    sleep 5
  else ret tt.

(** Lines 67-91 *)
Definition normal_mode (c : Go2WebRTCConnection) : M unit unit :=
  query_motion_mode c ;;
  switch_to_normal c.

(** Lines 96-133: Hello, forward, backward *)
Definition movements (c : Go2WebRTCConnection) : M unit unit :=
  publish_request_new c (RTC_TOPIC "SPORT_MOD") hello_payload ;;
  sleep 1 ;;
  publish_request_new c (RTC_TOPIC "SPORT_MOD") (move_payload (1 # 2)) ;;
  sleep 3 ;;
  check_kill_now ;;
  publish_request_new c (RTC_TOPIC "SPORT_MOD") (move_payload (-1 # 2)) ;;
  sleep 3 ;;
  check_kill_now.

(** Lines 135-171: the "ai" mode and the stance *)
Definition ai_mode (c : Go2WebRTCConnection) : M unit unit :=
  publish_request_new c (RTC_TOPIC "MOTION_SWITCHER") (switch_payload "ai") ;;
  sleep 10 ;;
  check_kill_now ;;
  publish_request_new c (RTC_TOPIC "SPORT_MOD") (standout_payload true) ;;
  sleep 5 ;;
  publish_request_new c (RTC_TOPIC "SPORT_MOD") (standout_payload false) ;;
  ret tt.

(** Lines 175-178: one round of the idle loop *)
Definition idle_round (i : Z) : M unit unit :=
  b <- read_kill_now ;;
  (if b then break_ else ret tt) ;;
  sleep 1.

Definition idle : M unit unit :=
  for_ (range 600) idle_round.

(** Lines 67-178: the command sequence *)
Definition command_sequence (c : Go2WebRTCConnection) : M unit unit :=
  normal_mode c ;;
  check_kill_now ;;
  movements c ;;
  ai_mode c ;;
  idle.

(** Line 53: the constructor of the driver is called and [conn] is
    assigned. *)
Definition construct_connection : M unit Go2WebRTCConnection :=
  fun s =>
    match construct w with
    | inr c => (Normal c, set_conn (Some c) s)
    | inl e => (Raised e, s)
    end.

(** Lines 48-65: up to the first check of the flag *)
Definition establish : M unit Go2WebRTCConnection :=
  c <- construct_connection ;;
  ok <- connect_with_retry c 3 5 ;;
  (if negb ok then return_ tt else ret tt) ;;
  wait_datachannel_open c 30 ;;
  check_kill_now ;;
  ret c.

(** Lines 48-178: the body of the [try] *)
Definition main_try : M unit unit :=
  c <- establish ;;
  command_sequence c.

(** Lines 180-188: the three [except] clauses *)
Definition main_except (e : exn) : option (M unit unit) :=
  if is_TimeoutError e then Some (emit (ELogError HTimeout e))
  else if is_ConnectionError e then Some (emit (ELogError HConnection e))
  else if is_Exception e then Some (emit (ELogError HUnexpected e))
  else None.

(** Lines 189-197: the cleanup.  [if conn:] holds for a connection object
    and fails for [None]. *)
Definition main_finally : M unit unit :=
  fun s =>
    match conn s with
    | Some _ =>
        try_except
          (emit ECleanup ;;
           sleep 1)
          (fun e => if is_Exception e then Some (ret tt) else None) s
    | None => (Normal tt, s)
    end.

(** Lines 44-45: a call of [main] starts with its locals unbound, then
    creates the killer and sets [conn] to [None]. *)
Definition enter_main {R} : M R unit :=
  fun s => (Normal tt, set_conn None (set_killer GracefulKiller_init (set_mode None s))).

Definition main {R} : M R unit :=
  call (
    enter_main ;;
    try_finally (try_except main_try main_except) main_finally).

(** ** The module body (lines 199-209) *)

(** [sys.exit(code)] *)
Definition sys_exit {R A} (code : Z) : M R A := raise (SystemExit code).

(** [asyncio.run(main())] hands over what [main] does. *)
Definition script : M unit unit :=
  try_finally
    (try_except main
       (fun e =>
          match e with
          | KeyboardInterrupt => Some (ret tt)
          | _ => if is_Exception e then Some (emit (ELogError HFatal e)) else None
          end))
    (sys_exit 0).

End Script.

(** The status with which the interpreter leaves when the module body ends
    with outcome [o]. *)
Definition exit_status (o : outcome unit unit) : Z :=
  match o with
  | Raised (SystemExit code) => code
  | Raised KeyboardInterrupt => 130
  | Raised _ => 1
  | _ => 0
  end.

(** ** Observations on traces *)

Definition is_publish (e : Event) : bool :=
  match e with EPublish _ _ => true | _ => false end.

Definition is_connect (e : Event) : bool :=
  match e with EConnect => true | _ => false end.

Definition is_sleep (e : Event) : bool :=
  match e with ESleep _ => true | _ => false end.

Definition is_signal (e : Event) : bool :=
  match e with ESignal _ => true | _ => false end.

Definition is_cleanup (e : Event) : bool :=
  match e with ECleanup => true | _ => false end.

Definition count (p : Event -> bool) (t : list Event) : nat :=
  List.length (filter p t).

(** The actions of the script itself: the trace without the handler runs. *)
Definition actions (t : list Event) : list Event :=
  filter (fun e => negb (is_signal e)) t.

(** ** Sample collaborators, used to run the script on concrete inputs *)

Module Sample.

Definition RTC_TOPIC (key : string) : string :=
  if String.eqb key "MOTION_SWITCHER" then "rt/api/motion_switcher/request"
  else if String.eqb key "SPORT_MOD" then "rt/api/sport/request"
  else "".

Definition SPORT_CMD (key : string) : Z :=
  if String.eqb key "Hello" then 1016
  else if String.eqb key "Move" then 1008
  else if String.eqb key "StandOut" then 1039
  else 0.

Definition dq : string := String (Ascii.ascii_of_nat 34) EmptyString.

(** The JSON text of an object with the one member [name]. *)
Definition mode_json (name : string) : string :=
  ("{" ++ dq ++ "name" ++ dq ++ ": " ++ dq ++ name ++ dq ++ "}")%string.

(** A parser for the two texts the samples use. *)
Definition json_loads (text : string) : option pyobj :=
  if String.eqb text (mode_json "normal") then Some (PyDict [("name", PyStr "normal")])
  else if String.eqb text (mode_json "ai") then Some (PyDict [("name", PyStr "ai")])
  else None.

(** A response of the driver with the given status code and data text. *)
Definition response (code : Z) (data : string) : pyobj :=
  PyDict [("data",
           PyDict [("header", PyDict [("status", PyDict [("code", PyInt code)])]);
                   ("data", PyStr data)])].

(** A device that connects at once and answers every request with status
    0 and the mode [name]. *)
Definition device (name : string) : Go2WebRTCConnection :=
  {| connect_outcome := fun _ => None;
     wait_datachannel_open_outcome := None;
     publish_request_new_outcome := fun _ => inr (response 0 (mode_json name)) |}.

(** A device whose first [n] calls of [connect()] raise [e]. *)
Definition flaky (n : nat) (e : exn) : Go2WebRTCConnection :=
  {| connect_outcome := fun k => if (k <? n)%nat then Some e else None;
     wait_datachannel_open_outcome := None;
     publish_request_new_outcome := fun _ => inr (response 0 (mode_json "normal")) |}.

(** A device that answers the mode query with status [code]. *)
Definition refusing (code : Z) : Go2WebRTCConnection :=
  {| connect_outcome := fun _ => None;
     wait_datachannel_open_outcome := None;
     publish_request_new_outcome := fun _ => inr (response code (mode_json "normal")) |}.

(** A device whose requests all raise [e]. *)
Definition broken (e : exn) : Go2WebRTCConnection :=
  {| connect_outcome := fun _ => None;
     wait_datachannel_open_outcome := None;
     publish_request_new_outcome := fun _ => inl e |}.

(** A device whose data channel does not open in time. *)
Definition stalled : Go2WebRTCConnection :=
  {| connect_outcome := fun _ => None;
     wait_datachannel_open_outcome := Some TimeoutError;
     publish_request_new_outcome := fun _ => inr (response 0 (mode_json "normal")) |}.

Definition quiet (c : Go2WebRTCConnection) : World :=
  {| construct := inr c; signals := fun _ => [] |}.

(** One SIGINT during the [k]-th await. *)
Definition interrupted (c : Go2WebRTCConnection) (k : nat) : World :=
  {| construct := inr c;
     signals := fun i => if (i =? k)%nat then [SIGINT] else [] |}.

Definition run (w : World) : outcome unit unit * State :=
  script w RTC_TOPIC SPORT_CMD json_loads boot.

End Sample.

(** ** Vocabulary of the statements *)

(** Among [n] calls of [connect()] starting with call [k], the number of
    failures before the first call that completes. *)
Fixpoint first_success (f : nat -> option exn) (k n : nat) : option nat :=
  match n with
  | O => None
  | S n' =>
      match f k with
      | None => Some O
      | Some _ => option_map S (first_success f (S k) n')
      end
  end.

(** What the bootstrapper does when [failures] attempts fail and are
    retried: each of them is followed by one pause, then comes one more
    attempt. *)
Definition retry_actions (delay : Z) (failures : nat) : list Event :=
  List.concat (repeat [EConnect; ESleep delay] failures) ++ [EConnect].

(** A computation started in a state of [P] ends in a state of [Q a] when
    it completes normally with [a], and in a state of [E] when it completes
    abruptly (break, return, exception). *)
Definition hoare {R A} (P : State -> Prop) (m : M R A)
    (Q : A -> State -> Prop) (E : State -> Prop) : Prop :=
  forall s, P s ->
    match m s with
    | (Normal a, s') => Q a s'
    | (_, s') => E s'
    end.

(** Events that no invariant of this development looks at. *)
Definition neutral (e : Event) : bool :=
  match e with
  | EConnect | ESleep _ | EWaitOpen _ | ELogError _ _ => true
  | _ => false
  end.

(** The handler has run in [t]. *)
Definition signalled (t : list Event) : Prop :=
  exists sg, In (ESignal sg) t.

(** Every read of the flag gives true exactly when the handler has run
    before it. *)
Definition reads_agree (t : list Event) : Prop :=
  forall pre b post, t = pre ++ ECheck b :: post -> (b = true <-> signalled pre).

Definition flag_invariant (s : State) : Prop :=
  (kill_now (killer s) = true <-> signalled (trace s)) /\ reads_agree (trace s).

(** No request is issued once the handler has run.  The handler only runs
    while the script is suspended, so the script wakes with the flag set
    right after a handler run, and a request later in the trace is a
    request issued after a wake point at which the flag was set. *)
Definition no_request_after_signal (t : list Event) : Prop :=
  forall pre sg post tp pl,
    t = pre ++ ESignal sg :: post -> ~ In (EPublish tp pl) post.





(** The requests and pauses of the sequence when nothing fails and the
    flag stays unset, each request written out as the topic and the
    payload of the source; [switch] tells whether the switch to "normal"
    is made. *)
Definition full_sequence (RTC_TOPIC : string -> string) (SPORT_CMD : string -> Z)
    (switch : bool) : list Event :=
  [EPublish (RTC_TOPIC "MOTION_SWITCHER") (PyDict [("api_id", PyInt 1001)])] ++
  (if switch
   then [EPublish (RTC_TOPIC "MOTION_SWITCHER")
           (PyDict [("api_id", PyInt 1002);
                    ("parameter", PyDict [("name", PyStr "normal")])]);
         ESleep 5]
   else []) ++
  [ECheck false;
   EPublish (RTC_TOPIC "SPORT_MOD") (PyDict [("api_id", PyInt (SPORT_CMD "Hello"))]);
   ESleep 1;
   EPublish (RTC_TOPIC "SPORT_MOD")
     (PyDict [("api_id", PyInt (SPORT_CMD "Move"));
              ("parameter",
               PyDict [("x", PyFloat (1 # 2)); ("y", PyInt 0); ("z", PyInt 0)])]);
   ESleep 3;
   ECheck false;
   EPublish (RTC_TOPIC "SPORT_MOD")
     (PyDict [("api_id", PyInt (SPORT_CMD "Move"));
              ("parameter",
               PyDict [("x", PyFloat (-1 # 2)); ("y", PyInt 0); ("z", PyInt 0)])]);
   ESleep 3;
   ECheck false;
   EPublish (RTC_TOPIC "MOTION_SWITCHER")
     (PyDict [("api_id", PyInt 1002); ("parameter", PyDict [("name", PyStr "ai")])]);
   ESleep 10;
   ECheck false;
   EPublish (RTC_TOPIC "SPORT_MOD")
     (PyDict [("api_id", PyInt (SPORT_CMD "StandOut"));
              ("parameter", PyDict [("data", PyBool true)])]);
   ESleep 5;
   EPublish (RTC_TOPIC "SPORT_MOD")
     (PyDict [("api_id", PyInt (SPORT_CMD "StandOut"));
              ("parameter", PyDict [("data", PyBool false)])])] ++
  List.concat (repeat [ECheck false; ESleep 1] 600).

(** In a state with the flag unset, [m] completes normally, adds exactly
    [t] to the trace and leaves the flag unset. *)
Definition steps {R A} (m : M R A) (t : list Event) : Prop :=
  forall s, kill_now (killer s) = false ->
    exists a s', m s = (Normal a, s') /\ trace s' = trace s ++ t /\
                 kill_now (killer s') = false.

(** The state when the mode query has returned. *)
Definition queried (w : World) (RTC_TOPIC : string -> string) (s : State) : State :=
  count_publish (awaited w (EPublish (RTC_TOPIC "MOTION_SWITCHER") query_payload) s).

(** The state when the switch request has returned. *)
Definition switched (w : World) (RTC_TOPIC : string -> string) (s : State) : State :=
  count_publish
    (awaited w (EPublish (RTC_TOPIC "MOTION_SWITCHER") (switch_payload "normal")) s).

(** The connection object exists and the cleanup has not started. *)
Definition before_cleanup (c : Go2WebRTCConnection) (s : State) : Prop :=
  conn s = Some c /\ count is_cleanup (trace s) = 0%nat.

(** The cleanup has run once. *)
Definition cleaned_once (s : State) : Prop :=
  count is_cleanup (trace s) = 1%nat.

(** A computation that never ends in [break]. *)
Definition no_break {R A} (m : M R A) : Prop :=
  forall s, fst (m s) <> Break.

(** What [connect_with_retry] can do: attempt, pause for [delay], and be
    interrupted by the handler. *)
Definition retry_event (delay : Z) (e : Event) : Prop :=
  e = EConnect \/ e = ESleep delay \/ is_signal e = true.

(** The clause of lines 180-188 that takes an [Exception]: the first one
    that matches. *)
Definition handler_for (e : exn) : Handler :=
  if is_TimeoutError e then HTimeout
  else if is_ConnectionError e then HConnection
  else HUnexpected.

(** Every request comes after an attempt to connect, after the wait for
    the data channel and after a read of the flag that gave false. *)
Definition requests_guarded (t : list Event) : Prop :=
  forall pre tp pl post,
    t = pre ++ EPublish tp pl :: post ->
    In EConnect pre /\ In (EWaitOpen 30) pre /\ In (ECheck false) pre.

(** No request has been issued. *)
Definition no_request (s : State) : Prop :=
  forall tp pl, ~ In (EPublish tp pl) (trace s).

(** The state in which the sequence starts and goes on. *)
Definition guarded (s : State) : Prop :=
  requests_guarded (trace s) /\
  In EConnect (trace s) /\ In (EWaitOpen 30) (trace s) /\ In (ECheck false) (trace s).

(** The sum of a weight over a trace, and a computation that adds at most
    [n] to it. *)
Definition measure (f : Event -> Z) (t : list Event) : Z :=
  fold_right (fun e acc => f e + acc) 0 t.

Definition costs {R A} (f : Event -> Z) (m : M R A) (n : Z) : Prop :=
  0 <= n /\
  forall s, measure f (trace (snd (m s))) <= measure f (trace s) + n.

(** The weight of the longest run: three attempts with two pauses, the
    wait, the eight requests with their pauses, 600 idle pauses and the
    cleanup with its pause. *)
Definition run_cost (f : Event -> Z) (RTC_TOPIC : string -> string)
    (SPORT_CMD : string -> Z) : Z :=
  3 * f EConnect + 2 * f (ESleep 5) + f (EWaitOpen 30) +
  f (EPublish (RTC_TOPIC "MOTION_SWITCHER") query_payload) +
  f (EPublish (RTC_TOPIC "MOTION_SWITCHER") (switch_payload "normal")) + f (ESleep 5) +
  f (EPublish (RTC_TOPIC "SPORT_MOD") (hello_payload SPORT_CMD)) + f (ESleep 1) +
  f (EPublish (RTC_TOPIC "SPORT_MOD") (move_payload SPORT_CMD (1 # 2))) + f (ESleep 3) +
  f (EPublish (RTC_TOPIC "SPORT_MOD") (move_payload SPORT_CMD (-1 # 2))) + f (ESleep 3) +
  f (EPublish (RTC_TOPIC "MOTION_SWITCHER") (switch_payload "ai")) + f (ESleep 10) +
  f (EPublish (RTC_TOPIC "SPORT_MOD") (standout_payload SPORT_CMD true)) + f (ESleep 5) +
  f (EPublish (RTC_TOPIC "SPORT_MOD") (standout_payload SPORT_CMD false)) +
  600 * f (ESleep 1) +
  f ECleanup + f (ESleep 1).

(** Three weights: requests, attempts to connect, and the time asked of
    [asyncio.sleep] (a delay below zero does not wait). *)
Definition request_weight (e : Event) : Z := if is_publish e then 1 else 0.

Definition attempt_weight (e : Event) : Z := if is_connect e then 1 else 0.

Definition pause_weight (e : Event) : Z :=
  match e with
  | ESleep d => Z.max 0 d
  | _ => 0
  end.

(** ** Facts on states and traces *)

Lemma trace_deliver (l : list signum) (s : State) :
  trace (deliver l s) = trace s ++ map ESignal l.
Proof.
  revert s. induction l as [|sg l IH]; intros s; simpl.
  - now rewrite app_nil_r.
  - rewrite IH. simpl. now rewrite <- app_assoc.
Qed.

Lemma clock_deliver (l : list signum) (s : State) :
  clock (deliver l s) = clock s.
Proof. revert s. induction l as [|sg l IH]; intros s; simpl; [|rewrite IH]; reflexivity. Qed.

Lemma connects_deliver (l : list signum) (s : State) :
  connects (deliver l s) = connects s.
Proof. revert s. induction l as [|sg l IH]; intros s; simpl; [|rewrite IH]; reflexivity. Qed.

Lemma publishes_deliver (l : list signum) (s : State) :
  publishes (deliver l s) = publishes s.
Proof. revert s. induction l as [|sg l IH]; intros s; simpl; [|rewrite IH]; reflexivity. Qed.

Lemma conn_deliver (l : list signum) (s : State) :
  conn (deliver l s) = conn s.
Proof. revert s. induction l as [|sg l IH]; intros s; simpl; [|rewrite IH]; reflexivity. Qed.

Lemma mode_deliver (l : list signum) (s : State) :
  current_motion_switcher_mode (deliver l s) = current_motion_switcher_mode s.
Proof. revert s. induction l as [|sg l IH]; intros s; simpl; [|rewrite IH]; reflexivity. Qed.

Lemma kill_now_deliver (l : list signum) (s : State) :
  kill_now (killer (deliver l s)) =
  match l with [] => kill_now (killer s) | _ => true end.
Proof.
  destruct l as [|sg l]; [reflexivity|]. simpl.
  generalize (handle s sg), (eq_refl : kill_now (killer (handle s sg)) = true).
  induction l as [|sg' l IH]; intros s' Hs'; simpl; [exact Hs'|].
  apply IH. reflexivity.
Qed.

Create Rewrite HintDb state.
#[local] Hint Rewrite trace_deliver clock_deliver connects_deliver publishes_deliver
  conn_deliver mode_deliver kill_now_deliver : state.

Lemma actions_app (t u : list Event) : actions (t ++ u) = actions t ++ actions u.
Proof. apply filter_app. Qed.

Lemma actions_signals (l : list signum) : actions (map ESignal l) = [].
Proof. induction l; simpl; auto. Qed.

Lemma count_app (p : Event -> bool) (t u : list Event) :
  count p (t ++ u) = (count p t + count p u)%nat.
Proof. unfold count. now rewrite filter_app, length_app. Qed.




Lemma range_nonpos (n : Z) : n <= 0 -> range n = [].
Proof. intros H. unfold range. destruct n; simpl; try reflexivity; lia. Qed.

(** ** The bootstrapper *)

Section Retry.

Variable w : World.
Variable c : Go2WebRTCConnection.
Variables max_retries delay : Z.

#[local] Abbreviation awaited := (awaited w).
#[local] Abbreviation attempt_round := (attempt_round w c max_retries delay).

Lemma trace_awaited (e : Event) (s : State) :
  trace (awaited e s) = trace s ++ e :: map ESignal (signals w (clock s)).
Proof. unfold awaited. autorewrite with state. simpl. now rewrite <- app_assoc. Qed.

Lemma connect_run (R : Type) (s : State) :
  @connect w R c s =
  (match connect_outcome c (connects s) with
   | None => Normal tt
   | Some e => Raised e
   end, count_connect (awaited EConnect s)).
Proof.
  unfold connect, bind, emit, suspend, awaited. simpl.
  autorewrite with state. simpl. destruct (connect_outcome c (connects s)); reflexivity.
Qed.

Lemma sleep_run (R : Type) (d : Z) (s : State) :
  @sleep w R d s = (Normal tt, awaited (ESleep d) s).
Proof. reflexivity. Qed.

Lemma connect_with_retry_unfold (R : Type) (s : State) :
  @connect_with_retry w R c max_retries delay s =
  call (for_ (range max_retries) attempt_round ;; return_ false) s.
Proof. reflexivity. Qed.

Lemma attempt_round_run (attempt : Z) (s : State) :
  attempt_round attempt s =
  let s1 := count_connect (awaited EConnect s) in
  match connect_outcome c (connects s) with
  | None => (Returned true, s1)
  | Some e =>
      if is_Exception e then
        if attempt <? max_retries - 1
        then (Normal tt, awaited (ESleep delay) s1)
        else (Returned false, s1)
      else (Raised e, s1)
  end.
Proof.
  unfold attempt_round, try_except, bind. rewrite connect_run.
  destruct (connect_outcome c (connects s)) as [e|]; [|reflexivity].
  destruct (is_Exception e); [|reflexivity].
  destruct (attempt <? max_retries - 1); reflexivity.
Qed.

Lemma first_success_step (f : nat -> option exn) (k n : nat) (e : exn) :
  f k = Some e ->
  first_success f k (S n) = option_map S (first_success f (S k) n).
Proof. intros H. simpl. now rewrite H. Qed.

(** The loop from attempt [a] on, with [len] attempts left. *)
Lemma retry_loop (len : nat) :
  forall (a : nat) (s : State),
    (a + len)%nat = Z.to_nat max_retries ->
    (forall k e, (k < len)%nat ->
       connect_outcome c (connects s + k) = Some e -> is_Exception e = true) ->
    exists o s' t,
      for_ (map Z.of_nat (seq a len)) attempt_round s = (o, s') /\
      trace s' = trace s ++ t /\
      match first_success (connect_outcome c) (connects s) len with
      | Some j => o = Returned true /\ actions t = retry_actions delay j
      | None =>
          match len with
          | O => o = Normal tt /\ t = []
          | S l => o = Returned false /\ actions t = retry_actions delay l
          end
      end.
Proof.
  induction len as [|len IH]; intros a s Hlen Hexc.
  - exists (Normal tt), s, []. simpl. rewrite app_nil_r. auto.
  - cbn [seq map for_]. rewrite attempt_round_run. cbv zeta.
    destruct (connect_outcome c (connects s)) as [e|] eqn:Hout.
    + assert (He : is_Exception e = true).
      { apply (Hexc 0%nat); [lia|]. now rewrite Nat.add_0_r. }
      rewrite He, (first_success_step _ _ _ _ Hout).
      destruct (Z.of_nat a <? max_retries - 1) eqn:Hlast.
      * apply Z.ltb_lt in Hlast.
        destruct len as [|len']; [lia|].
        destruct (IH (S a) (awaited (ESleep delay) (count_connect (awaited EConnect s))))
          as (o & s' & t & Hrun & Htr & Hres).
        { lia. }
        { intros k e' Hk. unfold awaited. autorewrite with state. simpl.
          autorewrite with state. simpl. intros Hk'. apply (Hexc (S k)); [lia|].
          now rewrite Nat.add_succ_r. }
        exists o, s'. eexists. split; [exact Hrun|]. split.
        { rewrite Htr, trace_awaited. simpl. rewrite trace_awaited.
          rewrite <- !app_assoc. reflexivity. }
        replace (connects (awaited (ESleep delay) (count_connect (awaited EConnect s))))
          with (S (connects s)) in Hres
          by (unfold awaited; autorewrite with state; simpl; autorewrite with state; reflexivity).
        assert (Hact : forall u j, actions u = retry_actions delay j ->
                  actions ((EConnect :: map ESignal (signals w (clock s))) ++
                           (ESleep delay ::
                              map ESignal (signals w (clock (count_connect (awaited EConnect s))))) ++ u)
                  = retry_actions delay (S j)).
        { intros u j Hu. rewrite !actions_app. simpl. rewrite !actions_signals, Hu.
          reflexivity. }
        destruct (first_success (connect_outcome c) (S (connects s)) (S len')) as [j|]; simpl.
        -- destruct Hres as [Ho Ht]. split; [exact Ho|]. now apply Hact.
        -- destruct Hres as [Ho Ht]. split; [exact Ho|]. now apply Hact.
      * apply Z.ltb_ge in Hlast.
        assert (len = 0%nat) by lia. subst len. simpl.
        exists (Returned false), (count_connect (awaited EConnect s)). eexists.
        split; [reflexivity|]. split.
        { simpl. rewrite trace_awaited. reflexivity. }
        split; [reflexivity|]. simpl. now rewrite actions_signals.
    + exists (Returned true), (count_connect (awaited EConnect s)). eexists.
      split; [reflexivity|]. split.
      { simpl. rewrite trace_awaited. reflexivity. }
      simpl. rewrite Hout. split; [reflexivity|]. simpl. now rewrite actions_signals.
Qed.

(** The whole call, for any number of retries. *)
Lemma connect_with_retry_run (R : Type) (s : State) :
  (forall k e, (k < Z.to_nat max_retries)%nat ->
     connect_outcome c (connects s + k) = Some e -> is_Exception e = true) ->
  exists result s' t,
    @connect_with_retry w R c max_retries delay s = (Normal result, s') /\
    trace s' = trace s ++ t /\
    match first_success (connect_outcome c) (connects s) (Z.to_nat max_retries) with
    | Some j => result = true /\ actions t = retry_actions delay j
    | None =>
        result = false /\
        match Z.to_nat max_retries with
        | O => t = []
        | S l => actions t = retry_actions delay l
        end
    end.
Proof.
  intros Hexc. rewrite connect_with_retry_unfold. unfold call, bind, range.
  destruct (retry_loop (Z.to_nat max_retries) 0%nat s eq_refl Hexc)
    as (o & s' & t & Hrun & Htr & Hres).
  rewrite Hrun.
  destruct (first_success (connect_outcome c) (connects s) (Z.to_nat max_retries)) as [j|].
  - destruct Hres as [-> Ht]. exists true, s', t. auto.
  - destruct (Z.to_nat max_retries) as [|l].
    + destruct Hres as [-> ->]. exists false, s', []. auto.
    + destruct Hres as [-> Ht]. exists false, s', t. auto.
Qed.

(** C9: with [max_retries <= 0] the bootstrapper makes no attempt, does
    not sleep (the state, and with it the trace, is unchanged) and
    returns false, whatever the connection object. *)
Theorem connect_with_retry_no_retries (R : Type) (s : State) :
  max_retries <= 0 ->
  @connect_with_retry w R c max_retries delay s = (Normal false, s).
Proof.
  intros Hn. rewrite connect_with_retry_unfold. unfold call, bind.
  rewrite (range_nonpos _ Hn). reflexivity.
Qed.



End Retry.

(** ** Rules for the combinators *)

Section Rules.

Context {R A : Type}.

Lemma hoare_conseq (P P' : State -> Prop) (m : M R A)
    (Q Q' : A -> State -> Prop) (E E' : State -> Prop) :
  hoare P' m Q' E' ->
  (forall s, P s -> P' s) ->
  (forall a s, Q' a s -> Q a s) ->
  (forall s, E' s -> E s) ->
  hoare P m Q E.
Proof.
  intros Hm HP HQ HE s Hs. specialize (Hm s (HP s Hs)).
  destruct (m s) as [[a| |r|e] s']; auto.
Qed.

Lemma hoare_ret (P : State -> Prop) (a : A) (Q : A -> State -> Prop) (E : State -> Prop) :
  (forall s, P s -> Q a s) -> hoare P (@ret R A a) Q E.
Proof. intros H s Hs. simpl. auto. Qed.

Lemma hoare_return (P : State -> Prop) (r : R) (Q : A -> State -> Prop) (E : State -> Prop) :
  (forall s, P s -> E s) -> hoare P (@return_ R A r) Q E.
Proof. intros H s Hs. simpl. auto. Qed.

Lemma hoare_break (P : State -> Prop) (Q : A -> State -> Prop) (E : State -> Prop) :
  (forall s, P s -> E s) -> hoare P (@break_ R A) Q E.
Proof. intros H s Hs. simpl. auto. Qed.

Lemma hoare_raise (P : State -> Prop) (e : exn) (Q : A -> State -> Prop) (E : State -> Prop) :
  (forall s, P s -> E s) -> hoare P (@raise R A e) Q E.
Proof. intros H s Hs. simpl. auto. Qed.

Lemma hoare_lift (P : State -> Prop) (v : exn + A) (Q : A -> State -> Prop) (E : State -> Prop) :
  (forall a s, P s -> Q a s) -> (forall s, P s -> E s) -> hoare P (@lift R A v) Q E.
Proof. intros HQ HE s Hs. destruct v; simpl; auto. Qed.

Lemma hoare_bind {B : Type} (P : State -> Prop) (m : M R A) (k : A -> M R B)
    (Q1 : A -> State -> Prop) (Q : B -> State -> Prop) (E : State -> Prop) :
  hoare P m Q1 E ->
  (forall a, hoare (Q1 a) (k a) Q E) ->
  hoare P (bind m k) Q E.
Proof.
  intros Hm Hk s Hs. unfold bind. specialize (Hm s Hs).
  destruct (m s) as [[a| |r|e] s']; auto. now apply Hk.
Qed.

Lemma hoare_try_except (P : State -> Prop) (body : M R A) (handlers : exn -> option (M R A))
    (Q : A -> State -> Prop) (E1 E : State -> Prop) :
  hoare P body Q E1 ->
  (forall e h, handlers e = Some h -> hoare E1 h Q E) ->
  (forall s, E1 s -> E s) ->
  hoare P (try_except body handlers) Q E.
Proof.
  intros Hb Hh HE s Hs. unfold try_except. specialize (Hb s Hs).
  destruct (body s) as [[a| |r|e] s']; auto.
  destruct (handlers e) as [h|] eqn:He; auto.
  now apply (Hh e h He).
Qed.

Lemma hoare_try_finally (P : State -> Prop) (body : M R A) (fin : M R unit)
    (Q1 Q : A -> State -> Prop) (E1 E : State -> Prop) :
  hoare P body Q1 E1 ->
  (forall a, hoare (Q1 a) fin (fun _ => Q a) E) ->
  hoare E1 fin (fun _ => E) E ->
  hoare P (try_finally body fin) Q E.
Proof.
  intros Hb Hn Ha s Hs. unfold try_finally. specialize (Hb s Hs).
  destruct (body s) as [[a| |r|e] s'].
  - specialize (Hn a s' Hb). destruct (fin s') as [[[]| |r'|e'] s'']; auto.
  - specialize (Ha s' Hb). destruct (fin s') as [[[]| |r'|e'] s'']; auto.
  - specialize (Ha s' Hb). destruct (fin s') as [[[]| |r'|e'] s'']; auto.
  - specialize (Ha s' Hb). destruct (fin s') as [[[]| |r'|e'] s'']; auto.
Qed.

End Rules.

Lemma hoare_for {R X : Type} (xs : list X) (body : X -> M R unit) (I E : State -> Prop) :
  (forall x, hoare I (body x) (fun _ => I) E) ->
  hoare I (for_ xs body) (fun _ s => I s \/ E s) E.
Proof.
  intros Hb. induction xs as [|x xs IH]; intros s Hs; simpl; [now left|].
  specialize (Hb x s Hs).
  destruct (body x s) as [[[]| |r|e] s']; auto.
  now apply IH.
Qed.

Lemma hoare_call {R R' : Type} (P : State -> Prop) (body : M R R)
    (Q : R -> State -> Prop) (E1 E : State -> Prop) :
  hoare P body Q E1 ->
  (forall r s, E1 s -> Q r s) ->
  (forall s, E1 s -> E s) ->
  hoare P (@call R R' body) Q E.
Proof.
  intros Hb HQ HE s Hs. unfold call. specialize (Hb s Hs).
  destruct (body s) as [[a| |r|e] s']; auto.
Qed.

(** ** The primitive operations, as equations *)

Section Primitives.

Variable w : World.
Variable c : Go2WebRTCConnection.

Lemma publish_run (R : Type) (topic : string) (payload : pyobj) (s : State) :
  @publish_request_new w R c topic payload s =
  (match publish_request_new_outcome c (publishes s) with
   | inr response => Normal response
   | inl e => Raised e
   end, count_publish (awaited w (EPublish topic payload) s)).
Proof.
  unfold publish_request_new, bind, emit, suspend, awaited. simpl.
  autorewrite with state. simpl.
  destruct (publish_request_new_outcome c (publishes s)); reflexivity.
Qed.

Lemma wait_run (R : Type) (t : Z) (s : State) :
  @wait_datachannel_open w R c t s =
  (match wait_datachannel_open_outcome c with
   | None => Normal tt
   | Some e => Raised e
   end, awaited w (EWaitOpen t) s).
Proof.
  unfold wait_datachannel_open, bind, emit, suspend, awaited. simpl.
  destruct (wait_datachannel_open_outcome c); reflexivity.
Qed.

End Primitives.

(** ** Invariants of a run

    [Jn] holds while the script runs, [Jc] right after a check that found
    the flag unset, [Ja] once the script has left its sequence (return,
    break, exception).  A request that is not [paired] is only issued in a
    state of [Jc]. *)

Section Invariant.

Variable w : World.
Variable RTC_TOPIC : string -> string.
Variable SPORT_CMD : string -> Z.
Variable json_loads : string -> option pyobj.

Variables Jn Jc Ja : State -> Prop.
Variable paired : string -> pyobj -> Prop.

Hypothesis Jn_tick : forall s, Jn s -> Jn (tick s).
Hypothesis Jn_handle : forall s sg, Jn s -> Jn (handle s sg).
Hypothesis Jn_count_connect : forall s, Jn s -> Jn (count_connect s).
Hypothesis Jn_count_publish : forall s, Jn s -> Jn (count_publish s).
Hypothesis Jn_set_mode : forall v s, Jn s -> Jn (set_mode (Some v) s).
Hypothesis Jn_log : forall e s, neutral e = true -> Jn s -> Jn (log e s).
Hypothesis Jn_Ja : forall s, Jn s -> Ja s.
Hypothesis Jc_Jn : forall s, Jc s -> Jn s.
Hypothesis check_false :
  forall s, Jn s -> kill_now (killer s) = false -> Jc (log (ECheck false) s).
Hypothesis check_true :
  forall s, Jn s -> kill_now (killer s) = true -> Ja (log (ECheck true) s).
Hypothesis publish_checked :
  forall tp pl s, Jc s -> Jn (log (EPublish tp pl) s).
Hypothesis publish_paired :
  forall tp pl s, paired tp pl -> Jn s -> Jn (log (EPublish tp pl) s).
Hypothesis paired_switch :
  paired (RTC_TOPIC "MOTION_SWITCHER") (switch_payload "normal").
Hypothesis paired_forward :
  paired (RTC_TOPIC "SPORT_MOD") (move_payload SPORT_CMD (1 # 2)).
Hypothesis paired_revert :
  paired (RTC_TOPIC "SPORT_MOD") (standout_payload SPORT_CMD false).

Lemma inv_deliver (l : list signum) (s : State) : Jn s -> Jn (deliver l s).
Proof. revert s. induction l as [|sg l IH]; intros s Hs; simpl; auto. Qed.

Lemma inv_suspended (e : Event) (s : State) :
  Jn (log e s) -> Jn (awaited w e s).
Proof.
  intros Hs. unfold awaited.
  change (clock s) with (clock (log e s)).
  generalize dependent (log e s). intros s' Hs'.
  apply (inv_deliver (signals w (clock s')) (tick s')). auto.
Qed.

Lemma inv_sleep (R : Type) (d : Z) (E : State -> Prop) :
  hoare Jn (@sleep w R d) (fun _ => Jn) E.
Proof. intros s Hs. rewrite sleep_run. apply inv_suspended. auto. Qed.

Lemma inv_connect (R : Type) (c : Go2WebRTCConnection) :
  hoare Jn (@connect w R c) (fun _ => Jn) Jn.
Proof.
  intros s Hs. rewrite connect_run.
  assert (Jn (count_connect (awaited w EConnect s)))
    by (apply Jn_count_connect, inv_suspended; auto).
  destruct (connect_outcome c (connects s)); assumption.
Qed.

Lemma inv_wait (R : Type) (c : Go2WebRTCConnection) (t : Z) :
  hoare Jn (@wait_datachannel_open w R c t) (fun _ => Jn) Ja.
Proof.
  intros s Hs. rewrite wait_run.
  assert (Jn (awaited w (EWaitOpen t) s)) by (apply inv_suspended; auto).
  destruct (wait_datachannel_open_outcome c); auto.
Qed.

Lemma inv_publish_checked (R : Type) (c : Go2WebRTCConnection) (tp : string) (pl : pyobj) :
  hoare Jc (@publish_request_new w R c tp pl) (fun _ => Jn) Ja.
Proof.
  intros s Hs. rewrite publish_run.
  assert (Jn (count_publish (awaited w (EPublish tp pl) s)))
    by (apply Jn_count_publish, inv_suspended; auto).
  destruct (publish_request_new_outcome c (publishes s)); auto.
Qed.

Lemma inv_publish_paired (R : Type) (c : Go2WebRTCConnection) (tp : string) (pl : pyobj) :
  paired tp pl ->
  hoare Jn (@publish_request_new w R c tp pl) (fun _ => Jn) Ja.
Proof.
  intros Hp s Hs. rewrite publish_run.
  assert (Jn (count_publish (awaited w (EPublish tp pl) s)))
    by (apply Jn_count_publish, inv_suspended; auto).
  destruct (publish_request_new_outcome c (publishes s)); auto.
Qed.

Lemma inv_check : hoare Jn check_kill_now (fun _ => Jc) Ja.
Proof.
  intros s Hs. unfold check_kill_now, bind, read_kill_now.
  destruct (kill_now (killer s)) eqn:Hk; simpl; auto.
Qed.

Lemma inv_attempt_round (c : Go2WebRTCConnection) (max_retries delay attempt : Z) :
  hoare Jn (attempt_round w c max_retries delay attempt) (fun _ => Jn) Jn.
Proof.
  unfold attempt_round.
  eapply hoare_try_except with (E1 := Jn); [| |auto].
  - eapply hoare_bind; [apply inv_connect|intros ?]. now apply hoare_return.
  - intros e h He. destruct (is_Exception e); [|discriminate].
    injection He as He; subst h. destruct (attempt <? max_retries - 1).
    + apply inv_sleep.
    + now apply hoare_return.
Qed.

Lemma inv_connect_with_retry (R : Type) (c : Go2WebRTCConnection) (max_retries delay : Z) :
  hoare Jn (@connect_with_retry w R c max_retries delay) (fun _ => Jn) Ja.
Proof.
  unfold connect_with_retry.
  eapply hoare_call with (E1 := Jn); [|auto|auto].
  eapply hoare_bind.
  - eapply hoare_conseq; [apply hoare_for with (I := Jn) (E := Jn)| | |]; auto.
    + intros x. apply inv_attempt_round.
    + intros ? s [H|H]; exact H.
  - intros ?. now apply hoare_return.
Qed.

Lemma inv_query (c : Go2WebRTCConnection) :
  hoare Jc (query_motion_mode w RTC_TOPIC json_loads c) (fun _ => Jn) Ja.
Proof.
  unfold query_motion_mode.
  eapply hoare_bind; [apply inv_publish_checked|intros response].
  eapply hoare_bind; [apply hoare_lift with (Q := fun _ => Jn); auto|intros code].
  destruct (py_eq_int code 0); [|now apply hoare_ret].
  eapply hoare_bind; [apply hoare_lift with (Q := fun _ => Jn); auto|intros data].
  eapply hoare_bind; [apply hoare_lift with (Q := fun _ => Jn); auto|intros name].
  intros s Hs. simpl. auto.
Qed.

Lemma inv_switch (c : Go2WebRTCConnection) :
  hoare Jn (switch_to_normal w RTC_TOPIC c) (fun _ => Jn) Ja.
Proof.
  unfold switch_to_normal.
  eapply hoare_bind with (Q1 := fun _ => Jn).
  - intros s Hs. unfold load_current_mode.
    destruct (current_motion_switcher_mode s); auto.
  - intros mode. destruct (negb (py_eq_str mode "normal")); [|now apply hoare_ret].
    eapply hoare_bind; [apply inv_publish_paired, paired_switch|intros ?].
    apply inv_sleep.
Qed.

Lemma inv_normal_mode (c : Go2WebRTCConnection) :
  hoare Jc (normal_mode w RTC_TOPIC json_loads c) (fun _ => Jn) Ja.
Proof.
  unfold normal_mode.
  eapply hoare_bind; [apply inv_query|intros ?]. apply inv_switch.
Qed.

Lemma inv_movements (c : Go2WebRTCConnection) :
  hoare Jc (movements w RTC_TOPIC SPORT_CMD c) (fun _ => Jc) Ja.
Proof.
  unfold movements.
  eapply hoare_bind; [apply inv_publish_checked|intros ?].
  eapply hoare_bind; [apply inv_sleep|intros ?].
  eapply hoare_bind; [apply inv_publish_paired, paired_forward|intros ?].
  eapply hoare_bind; [apply inv_sleep|intros ?].
  eapply hoare_bind; [apply inv_check|intros ?].
  eapply hoare_bind; [apply inv_publish_checked|intros ?].
  eapply hoare_bind; [apply inv_sleep|intros ?].
  apply inv_check.
Qed.

Lemma inv_ai_mode (c : Go2WebRTCConnection) :
  hoare Jc (ai_mode w RTC_TOPIC SPORT_CMD c) (fun _ => Jn) Ja.
Proof.
  unfold ai_mode.
  eapply hoare_bind; [apply inv_publish_checked|intros ?].
  eapply hoare_bind; [apply inv_sleep|intros ?].
  eapply hoare_bind; [apply inv_check|intros ?].
  eapply hoare_bind; [apply inv_publish_checked|intros ?].
  eapply hoare_bind; [apply inv_sleep|intros ?].
  eapply hoare_bind; [apply inv_publish_paired, paired_revert|intros ?].
  now apply hoare_ret.
Qed.

Lemma inv_idle_round (i : Z) : hoare Jn (idle_round w i) (fun _ => Jn) Ja.
Proof.
  intros s Hs. unfold idle_round, bind, read_kill_now.
  destruct (kill_now (killer s)) eqn:Hk; unfold break_, ret; cbv beta iota; [auto|].
  rewrite sleep_run. apply inv_suspended. auto.
Qed.

Lemma inv_idle : hoare Jn (idle w) (fun _ => Ja) Ja.
Proof.
  unfold idle.
  eapply hoare_conseq; [apply hoare_for with (I := Jn) (E := Ja)| | |]; auto.
  - apply inv_idle_round.
  - intros ? s [H|H]; auto.
Qed.

Lemma inv_command_sequence (c : Go2WebRTCConnection) :
  hoare Jc (command_sequence w RTC_TOPIC SPORT_CMD json_loads c) (fun _ => Ja) Ja.
Proof.
  unfold command_sequence.
  eapply hoare_bind; [apply inv_normal_mode|intros ?].
  eapply hoare_bind; [apply inv_check|intros ?].
  eapply hoare_bind; [apply inv_movements|intros ?].
  eapply hoare_bind; [apply inv_ai_mode|intros ?].
  apply inv_idle.
Qed.

(** From the constructor on: [J0] holds when [main] enters its [try]. *)

Variable J0 : State -> Prop.

Hypothesis J0_constructed :
  forall c s, construct w = inr c -> J0 s -> Jn (set_conn (Some c) s).
Hypothesis J0_raised :
  forall e s, construct w = inl e -> J0 s -> Ja s.
Hypothesis Ja_log_error :
  forall h e s, Ja s -> Ja (log (ELogError h e) s).

Lemma inv_establish : hoare J0 (establish w) (fun _ => Jc) Ja.
Proof.
  unfold establish.
  eapply hoare_bind with (Q1 := fun _ => Jn).
  - intros s Hs. unfold construct_connection.
    destruct (construct w) as [e|c] eqn:Hc; eauto.
  - intros c.
    eapply hoare_bind; [apply inv_connect_with_retry|intros ok].
    eapply hoare_bind with (Q1 := fun _ => Jn).
    { destruct (negb ok); [now apply hoare_return|now apply hoare_ret]. }
    intros ?.
    eapply hoare_bind; [apply inv_wait|intros ?].
    eapply hoare_bind; [apply inv_check|intros ?].
    now apply hoare_ret.
Qed.

Lemma inv_main_try :
  hoare J0 (main_try w RTC_TOPIC SPORT_CMD json_loads) (fun _ => Ja) Ja.
Proof.
  unfold main_try.
  eapply hoare_bind; [apply inv_establish|intros c].
  apply inv_command_sequence.
Qed.

Lemma inv_guarded :
  hoare J0 (try_except (main_try w RTC_TOPIC SPORT_CMD json_loads) main_except)
    (fun _ => Ja) Ja.
Proof.
  eapply hoare_try_except with (E1 := Ja); [apply inv_main_try| |auto].
  intros e h He. unfold main_except in He.
  destruct (is_TimeoutError e); [injection He as He; subst h; intros s Hs; simpl; auto|].
  destruct (is_ConnectionError e); [injection He as He; subst h; intros s Hs; simpl; auto|].
  destruct (is_Exception e); [injection He as He; subst h; intros s Hs; simpl; auto|].
  discriminate.
Qed.

(** The cleanup, the return of [main] and the module body, for an
    invariant that the cleanup keeps. *)

Variable P0 : State -> Prop.

Hypothesis P0_enter :
  forall s, P0 s -> J0 (set_conn None (set_killer GracefulKiller_init (set_mode None s))).
Hypothesis Ja_tick : forall s, Ja s -> Ja (tick s).
Hypothesis Ja_handle : forall s sg, Ja s -> Ja (handle s sg).
Hypothesis Ja_log_cleanup : forall s, Ja s -> Ja (log ECleanup s).
Hypothesis Ja_log_sleep : forall d s, Ja s -> Ja (log (ESleep d) s).

Lemma abrupt_deliver (l : list signum) (s : State) : Ja s -> Ja (deliver l s).
Proof. revert s. induction l as [|sg l IH]; intros s Hs; simpl; auto. Qed.

Lemma inv_finally : hoare Ja (main_finally w) (fun _ => Ja) Ja.
Proof.
  intros s Hs. unfold main_finally.
  destruct (conn s); [|exact Hs].
  unfold try_except, bind, emit. rewrite sleep_run. unfold awaited.
  apply abrupt_deliver. auto.
Qed.

Lemma inv_main (R : Type) :
  hoare P0 (@main w RTC_TOPIC SPORT_CMD json_loads R) (fun _ => Ja) Ja.
Proof.
  unfold main.
  eapply hoare_call with (E1 := Ja); [|auto|auto].
  eapply hoare_bind with (Q1 := fun _ => J0).
  - intros s Hs. simpl. auto.
  - intros ?. eapply hoare_try_finally; [apply inv_guarded| |].
    + intros ?. apply inv_finally.
    + apply inv_finally.
Qed.

Lemma inv_script :
  hoare P0 (script w RTC_TOPIC SPORT_CMD json_loads) (fun _ => Ja) Ja.
Proof.
  unfold script.
  eapply hoare_try_finally with (Q1 := fun _ => Ja) (E1 := Ja).
  - eapply hoare_try_except with (E1 := Ja); [apply inv_main| |auto].
    intros e h He.
    assert (Hh : h = ret tt \/ h = emit (ELogError HFatal e)).
    { destruct e; simpl in He; try discriminate; injection He as He; subst h; auto. }
    destruct Hh as [-> | ->]; intros s Hs; simpl; auto.
  - intros ?. now apply hoare_raise.
  - now apply hoare_raise.
Qed.

End Invariant.

(** ** Traces extended at the end *)

Lemma snoc_split {X : Type} (t : list X) (e : X) (pre : list X) (x : X) (post : list X) :
  t ++ [e] = pre ++ x :: post ->
  (post = [] /\ t = pre /\ e = x) \/
  (exists post', post = post' ++ [e] /\ t = pre ++ x :: post').
Proof.
  intros H. destruct post as [|y post _] using rev_ind.
  - left. apply app_inj_tail in H. tauto.
  - right. exists post.
    change (pre ++ x :: post ++ [y]) with (pre ++ (x :: post) ++ [y]) in H.
    rewrite app_assoc in H. apply app_inj_tail in H. destruct H as [-> ->]. auto.
Qed.

Lemma signalled_snoc (t : list Event) (e : Event) :
  signalled (t ++ [e]) <-> signalled t \/ is_signal e = true.
Proof.
  unfold signalled. split.
  - intros [sg H]. apply in_app_or in H. destruct H as [H|[->|[]]]; eauto.
  - intros [[sg H]|H].
    + exists sg. apply in_or_app. auto.
    + destruct e; try discriminate. exists sig. apply in_or_app. simpl. auto.
Qed.

Lemma signalled_nil : ~ signalled [].
Proof. intros [sg []]. Qed.

Lemma reads_agree_nil : reads_agree [].
Proof. intros pre b post H. now destruct pre. Qed.

Lemma reads_agree_snoc (t : list Event) (e : Event) :
  reads_agree t ->
  (forall b, e = ECheck b -> (b = true <-> signalled t)) ->
  reads_agree (t ++ [e]).
Proof.
  intros Ht He pre b post H. apply snoc_split in H.
  destruct H as [(_ & -> & ->)|(post' & _ & ->)].
  - now apply He.
  - now apply (Ht pre b post').
Qed.




Lemma count_snoc (p : Event -> bool) (t : list Event) (e : Event) :
  count p (t ++ [e]) = (count p t + (if p e then 1 else 0))%nat.
Proof. rewrite count_app. unfold count. simpl. now destruct (p e). Qed.

Lemma hoare_final {R A : Type} (P J : State -> Prop) (m : M R A) (s : State) :
  hoare P m (fun _ => J) J -> P s -> J (snd (m s)).
Proof.
  intros H Hs. specialize (H s Hs). destruct (m s) as [[a| |r|e] s']; exact H.
Qed.

(** ** The flag and the handler *)

Lemma flag_log (e : Event) (s : State) :
  (forall b, e = ECheck b -> b = kill_now (killer s)) ->
  is_signal e = false ->
  flag_invariant s -> flag_invariant (log e s).
Proof.
  intros Hc Hsig [Hk Hr]. split; simpl.
  - rewrite signalled_snoc, Hsig. rewrite Hk. intuition discriminate.
  - apply reads_agree_snoc; [exact Hr|].
    intros b Hb. rewrite (Hc b Hb). exact Hk.
Qed.

Lemma flag_handle (s : State) (sg : signum) :
  flag_invariant s -> flag_invariant (handle s sg).
Proof.
  intros [Hk Hr]. split; simpl.
  - rewrite signalled_snoc. simpl. tauto.
  - apply reads_agree_snoc; [exact Hr|]. discriminate.
Qed.

Lemma flag_script (w : World) (RTC_TOPIC : string -> string) (SPORT_CMD : string -> Z)
    (json_loads : string -> option pyobj) :
  flag_invariant (snd (script w RTC_TOPIC SPORT_CMD json_loads boot)).
Proof.
  apply hoare_final with (P := fun s => trace s = []); [|reflexivity].
  apply inv_script with
    (Jn := flag_invariant) (Jc := flag_invariant) (paired := fun _ _ => True)
    (J0 := flag_invariant); auto using flag_handle.
  - intros e s He. apply flag_log; destruct e; try discriminate; auto.
  - intros s Hs Hk. apply flag_log; auto. intros b [= <-]. now rewrite Hk.
  - intros s Hs Hk. apply flag_log; auto. intros b [= <-]. now rewrite Hk.
  - intros tp pl s Hs. apply flag_log; auto. discriminate.
  - intros tp pl s _ Hs. apply flag_log; auto. discriminate.
  - intros h e s Hs. apply flag_log; auto. discriminate.
  - intros s Hs. split; simpl.
    + rewrite Hs. split; [discriminate|]. intros H. now apply signalled_nil in H.
    + rewrite Hs. apply reads_agree_nil.
  - intros s Hs. apply flag_log; auto. discriminate.
  - intros d s Hs. apply flag_log; auto. discriminate.
Qed.

(** C10: the flag is false when the killer is created, the handler sets
    it to true, and in a run of the script nothing else changes it: every
    read of the flag gives true exactly when the handler has run before,
    so that once a read gave true every later read gives true; at the end
    the flag is true exactly when the handler has run. *)
Theorem kill_now_monotone (w : World) (RTC_TOPIC : string -> string)
    (SPORT_CMD : string -> Z) (json_loads : string -> option pyobj) :
  kill_now GracefulKiller_init = false /\
  (forall self sg, kill_now (_handle_signal self sg) = true) /\
  (let s := snd (script w RTC_TOPIC SPORT_CMD json_loads boot) in
   reads_agree (trace s) /\
   (kill_now (killer s) = true <-> signalled (trace s)) /\
   (forall pre b1 mid b2 post,
      trace s = pre ++ ECheck b1 :: mid ++ ECheck b2 :: post ->
      b1 = true -> b2 = true)).
Proof.
  split; [reflexivity|]. split; [reflexivity|]. cbv zeta.
  destruct (flag_script w RTC_TOPIC SPORT_CMD json_loads) as [Hk Hr].
  split; [exact Hr|]. split; [exact Hk|].
  intros pre b1 mid b2 post Ht Hb1.
  assert (H1 : signalled pre) by (apply (Hr pre b1 (mid ++ ECheck b2 :: post) Ht), Hb1).
  apply (Hr (pre ++ ECheck b1 :: mid) b2 post).
  - rewrite Ht, <- app_assoc. reflexivity.
  - destruct H1 as [sg H1]. exists sg. apply in_or_app. auto.
Qed.

(** ** Requests and the flag *)






(** ** Outcomes: nothing breaks out of a function *)

Section NoBreak.

Variable w : World.
Variable RTC_TOPIC : string -> string.
Variable SPORT_CMD : string -> Z.
Variable json_loads : string -> option pyobj.

Lemma no_break_bind {R A B : Type} (m : M R A) (k : A -> M R B) :
  no_break m -> (forall a, no_break (k a)) -> no_break (bind m k).
Proof.
  intros Hm Hk s. unfold bind. specialize (Hm s).
  destruct (m s) as [[a| |r|e] s']; simpl in *; try discriminate; [|congruence].
  apply Hk.
Qed.

Lemma no_break_for {R X : Type} (xs : list X) (body : X -> M R unit) :
  no_break (for_ xs body).
Proof.
  induction xs as [|x xs IH]; intros s; simpl; [discriminate|].
  destruct (body x s) as [[[]| |r|e] s']; simpl; try discriminate. apply IH.
Qed.

Lemma no_break_lift {R A : Type} (v : exn + A) : no_break (@lift R A v).
Proof. intros s. destruct v; discriminate. Qed.

Lemma no_break_publish {R : Type} (c : Go2WebRTCConnection) (tp : string) (pl : pyobj) :
  no_break (@publish_request_new w R c tp pl).
Proof.
  intros s. rewrite publish_run.
  destruct (publish_request_new_outcome c (publishes s)); discriminate.
Qed.

Lemma no_break_sleep {R : Type} (d : Z) : no_break (@sleep w R d).
Proof. intros s. discriminate. Qed.

Lemma no_break_check : no_break check_kill_now.
Proof.
  intros s. unfold check_kill_now, bind, read_kill_now.
  destruct (kill_now (killer s)); discriminate.
Qed.

Lemma no_break_call {R R' : Type} (body : M R R) :
  no_break body -> no_break (@call R R' body).
Proof.
  intros Hb s. unfold call. specialize (Hb s).
  destruct (body s) as [[a| |r|e] s']; simpl in *; congruence.
Qed.

Ltac no_break_leaf :=
  let s := fresh "s" in
  intros s;
  cbv beta delta [emit suspend ret return_ raise break_ read_kill_now
                  load_current_mode store_current_mode construct_connection];
  repeat match goal with
         | |- context [match ?x with _ => _ end] => destruct x
         end;
  discriminate.

Ltac no_break_steps :=
  repeat first
    [ apply no_break_for
    | apply no_break_lift
    | apply no_break_call
    | match goal with |- no_break (if ?b then _ else _) => destruct b end
    | apply no_break_bind; [|intros ?] ];
  try no_break_leaf.

Lemma no_break_command_sequence (c : Go2WebRTCConnection) :
  no_break (command_sequence w RTC_TOPIC SPORT_CMD json_loads c).
Proof.
  unfold command_sequence, normal_mode, query_motion_mode, switch_to_normal,
    movements, ai_mode, idle.
  no_break_steps.
Qed.

Lemma no_break_establish : no_break (establish w).
Proof. unfold establish, connect_with_retry. no_break_steps. Qed.

Lemma no_break_main_try : no_break (main_try w RTC_TOPIC SPORT_CMD json_loads).
Proof.
  unfold main_try. apply no_break_bind; [apply no_break_establish|intros c].
  apply no_break_command_sequence.
Qed.

Lemma main_finally_normal (s : State) : fst (main_finally w s) = Normal tt.
Proof.
  unfold main_finally. destruct (conn s); [|reflexivity].
  unfold try_except, bind, emit. rewrite sleep_run. reflexivity.
Qed.

Lemma main_except_none (e : exn) : main_except e = None -> is_Exception e = false.
Proof. unfold main_except. destruct e; simpl; congruence. Qed.

(** What [main] gives back: it returns, or lets through an exception that
    is not an [Exception]. *)
Lemma main_outcome (R : Type) (s : State) (e : exn) :
  fst (@main w RTC_TOPIC SPORT_CMD json_loads R s) = Raised e ->
  is_Exception e = false.
Proof.
  unfold main, call, bind, enter_main, try_finally.
  set (s0 := set_conn None (set_killer GracefulKiller_init (set_mode None s))).
  unfold try_except.
  pose proof (no_break_main_try s0) as Hnb.
  destruct (main_try w RTC_TOPIC SPORT_CMD json_loads s0) as [[[]| |[]|e'] s1];
    simpl in Hnb; try congruence.
  - pose proof (main_finally_normal s1) as Hf.
    destruct (main_finally w s1) as [o s2]. simpl in Hf. subst o. discriminate.
  - pose proof (main_finally_normal s1) as Hf.
    destruct (main_finally w s1) as [o s2]. simpl in Hf. subst o. discriminate.
  - destruct (main_except e') as [h|] eqn:Hh.
    + assert (Hn : exists s2, h s1 = (Normal tt, s2)).
      { unfold main_except in Hh.
        destruct (is_TimeoutError e'); [injection Hh as Hh; subst h; eexists; reflexivity|].
        destruct (is_ConnectionError e'); [injection Hh as Hh; subst h; eexists; reflexivity|].
        destruct (is_Exception e'); [injection Hh as Hh; subst h; eexists; reflexivity|].
        discriminate. }
      destruct Hn as [s2 ->].
      pose proof (main_finally_normal s2) as Hf.
      destruct (main_finally w s2) as [o s3]. simpl in Hf. subst o. discriminate.
    + pose proof (main_finally_normal s1) as Hf.
      destruct (main_finally w s1) as [o s2]. simpl in Hf. subst o. simpl.
      intros [= <-]. now apply main_except_none.
Qed.

(** The module body always ends in [sys.exit(0)]. *)
Lemma script_outcome (s : State) :
  fst (script w RTC_TOPIC SPORT_CMD json_loads s) = Raised (SystemExit 0).
Proof.
  unfold script, try_finally, sys_exit, raise.
  match goal with |- context [try_except ?b ?h s] => destruct (try_except b h s) end.
  reflexivity.
Qed.

End NoBreak.

(** ** The cleanup *)

Section Cleanup.

Variable w : World.
Variable RTC_TOPIC : string -> string.
Variable SPORT_CMD : string -> Z.
Variable json_loads : string -> option pyobj.
Variable c : Go2WebRTCConnection.
Hypothesis constructed : construct w = inr c.

Lemma before_cleanup_log (e : Event) (s : State) :
  is_cleanup e = false -> before_cleanup c s -> before_cleanup c (log e s).
Proof.
  intros He [Hc Hn]. split; [exact Hc|]. simpl. rewrite count_snoc, He, Hn. reflexivity.
Qed.

Lemma cleaned_once_log (e : Event) (s : State) :
  is_cleanup e = false -> cleaned_once s -> cleaned_once (log e s).
Proof.
  unfold cleaned_once. intros He Hn. simpl. rewrite count_snoc, He, Hn. reflexivity.
Qed.

Lemma cleaned_once_deliver (l : list signum) (s : State) :
  cleaned_once s -> cleaned_once (deliver l s).
Proof.
  revert s. induction l as [|sg l IH]; intros s Hs; simpl; [exact Hs|].
  apply IH. now apply cleaned_once_log.
Qed.

Lemma cleanup_guarded :
  hoare (fun s => count is_cleanup (trace s) = 0%nat)
    (try_except (main_try w RTC_TOPIC SPORT_CMD json_loads) main_except)
    (fun _ => before_cleanup c) (before_cleanup c).
Proof.
  apply inv_guarded with
    (Jn := before_cleanup c) (Jc := before_cleanup c) (paired := fun _ _ => True);
    auto; try (intros; apply before_cleanup_log; [reflexivity|assumption]).
  - intros e s He Hs. apply before_cleanup_log; [|exact Hs].
    destruct e; try reflexivity; discriminate.
  - intros c' s Hc' Hs. rewrite constructed in Hc'. injection Hc' as <-.
    split; [reflexivity|exact Hs].
  - intros e s He. rewrite constructed in He. discriminate.
Qed.

Lemma cleanup_finally :
  hoare (before_cleanup c) (main_finally w) (fun _ => cleaned_once) cleaned_once.
Proof.
  intros s [Hc Hn]. unfold main_finally. rewrite Hc.
  unfold try_except, bind, emit. rewrite sleep_run. unfold awaited.
  apply cleaned_once_deliver. apply cleaned_once_log; [reflexivity|].
  unfold cleaned_once. simpl. rewrite count_snoc, Hn. reflexivity.
Qed.

Lemma cleanup_main (R : Type) :
  hoare (fun s => trace s = []) (@main w RTC_TOPIC SPORT_CMD json_loads R)
    (fun _ => cleaned_once) cleaned_once.
Proof.
  unfold main.
  eapply hoare_call with (E1 := cleaned_once); [|auto|auto].
  eapply hoare_bind with (Q1 := fun _ s => count is_cleanup (trace s) = 0%nat).
  - intros s Hs. simpl. now rewrite Hs.
  - intros ?. eapply hoare_try_finally; [apply cleanup_guarded| |].
    + intros ?. apply cleanup_finally.
    + apply cleanup_finally.
Qed.

Lemma cleanup_script :
  cleaned_once (snd (script w RTC_TOPIC SPORT_CMD json_loads boot)).
Proof.
  apply hoare_final with (P := fun s => trace s = []); [|reflexivity].
  unfold script.
  eapply hoare_try_finally with (Q1 := fun _ => cleaned_once) (E1 := cleaned_once).
  - eapply hoare_try_except with (E1 := cleaned_once); [apply cleanup_main| |auto].
    intros e h He.
    assert (Hh : h = ret tt \/ h = emit (ELogError HFatal e)).
    { destruct e; simpl in He; try discriminate; injection He as He; subst h; auto. }
    destruct Hh as [-> | ->]; intros s Hs; simpl; [exact Hs|].
    now apply cleaned_once_log.
  - intros ?. now apply hoare_raise.
  - now apply hoare_raise.
Qed.

End Cleanup.

(** ** The mode step *)

Section ModeStep.

Variable w : World.
Variable RTC_TOPIC : string -> string.
Variable SPORT_CMD : string -> Z.
Variable json_loads : string -> option pyobj.
Variable c : Go2WebRTCConnection.


Lemma query_refused_run (s : State) (response code : pyobj) :
  publish_request_new_outcome c (publishes s) = inr response ->
  status_code response = inr code ->
  py_eq_int code 0 = false ->
  query_motion_mode w RTC_TOPIC json_loads c s = (Normal tt, queried w RTC_TOPIC s).
Proof.
  intros Hr Hc H0. unfold query_motion_mode, bind.
  rewrite publish_run, Hr, Hc. simpl. rewrite H0. reflexivity.
Qed.

Lemma query_accepted_run (s : State) (response code data name : pyobj) :
  publish_request_new_outcome c (publishes s) = inr response ->
  status_code response = inr code ->
  py_eq_int code 0 = true ->
  response_data json_loads response = inr data ->
  getitem data "name" = inr name ->
  query_motion_mode w RTC_TOPIC json_loads c s = (Normal tt, set_mode (Some name) (queried w RTC_TOPIC s)).
Proof.
  intros Hr Hc H0 Hd Hn. unfold query_motion_mode, bind.
  rewrite publish_run, Hr, Hc. simpl. rewrite H0, Hd. simpl. rewrite Hn. reflexivity.
Qed.

Lemma switch_run (s : State) (name : pyobj) :
  current_motion_switcher_mode s = Some name ->
  switch_to_normal w RTC_TOPIC c s =
  if py_eq_str name "normal" then (Normal tt, s)
  else
    match publish_request_new_outcome c (publishes s) with
    | inr _ => (Normal tt, awaited w (ESleep 5) (switched w RTC_TOPIC s))
    | inl e => (Raised e, switched w RTC_TOPIC s)
    end.
Proof.
  intros Hm. unfold switch_to_normal, bind, load_current_mode. rewrite Hm.
  destruct (py_eq_str name "normal"); simpl; [reflexivity|].
  rewrite publish_run.
  destruct (publish_request_new_outcome c (publishes s)); reflexivity.
Qed.

Lemma switch_unbound_run (s : State) :
  current_motion_switcher_mode s = None ->
  switch_to_normal w RTC_TOPIC c s =
  (Raised (UnboundLocalError "current_motion_switcher_mode"), s).
Proof.
  intros Hm. unfold switch_to_normal, bind, load_current_mode. now rewrite Hm.
Qed.

Lemma mode_queried (s : State) :
  current_motion_switcher_mode (queried w RTC_TOPIC s) = current_motion_switcher_mode s.
Proof. unfold queried, awaited. simpl. now autorewrite with state. Qed.

Lemma clock_awaited (e : Event) (s : State) : clock (awaited w e s) = S (clock s).
Proof. unfold awaited. now autorewrite with state. Qed.

Lemma trace_switched (s : State) :
  trace (switched w RTC_TOPIC s) =
  trace s ++ EPublish (RTC_TOPIC "MOTION_SWITCHER") (switch_payload "normal")
          :: map ESignal (signals w (clock s)).
Proof. unfold switched, count_publish. cbn [trace]. apply trace_awaited. Qed.

Lemma clock_switched (s : State) : clock (switched w RTC_TOPIC s) = S (clock s).
Proof. unfold switched, count_publish. cbn [clock]. apply clock_awaited. Qed.

Lemma py_eq_str_true (v : pyobj) (t : string) :
  py_eq_str v t = true <-> v = PyStr t.
Proof.
  destruct v; simpl; try (split; [discriminate|discriminate]).
  rewrite String.eqb_eq. split; congruence.
Qed.

Lemma normal_mode_run (s : State) (response code data name : pyobj) :
  publish_request_new_outcome c (publishes s) = inr response ->
  status_code response = inr code ->
  py_eq_int code 0 = true ->
  response_data json_loads response = inr data ->
  getitem data "name" = inr name ->
  normal_mode w RTC_TOPIC json_loads c s =
  switch_to_normal w RTC_TOPIC c (set_mode (Some name) (queried w RTC_TOPIC s)).
Proof.
  intros Hr Hc H0 Hd Hn. unfold normal_mode, bind.
  now rewrite (query_accepted_run s response code data name Hr Hc H0 Hd Hn).
Qed.

(** C4: when the response to the mode query carries a nonzero status
    code, the query completes without assigning the current-mode local:
    the local is as it was before the query (unbound, in [main]). *)
Theorem refused_query_keeps_mode (s : State) (response code : pyobj) :
  publish_request_new_outcome c (publishes s) = inr response ->
  status_code response = inr code ->
  py_eq_int code 0 = false ->
  exists s',
    query_motion_mode w RTC_TOPIC json_loads c s = (Normal tt, s') /\
    current_motion_switcher_mode s' = current_motion_switcher_mode s.
Proof.
  intros Hr Hc H0. exists (queried w RTC_TOPIC s). split.
  - now apply query_refused_run with (response := response) (code := code).
  - apply mode_queried.
Qed.

(** C5: when the mode query succeeds with mode [name]: if [name] is
    "normal", the mode step ends with the query: neither the switch
    request nor its pause is made; otherwise the switch request (api_id
    1002, name "normal") is issued and, once it has returned, the pause of
    5 follows. *)
Theorem normal_mode_switch (s : State) (response code data name : pyobj) :
  publish_request_new_outcome c (publishes s) = inr response ->
  status_code response = inr code ->
  py_eq_int code 0 = true ->
  response_data json_loads response = inr data ->
  getitem data "name" = inr name ->
  let s1 := set_mode (Some name) (queried w RTC_TOPIC s) in
  (name = PyStr "normal" -> normal_mode w RTC_TOPIC json_loads c s = (Normal tt, s1)) /\
  (name <> PyStr "normal" ->
   exists o s',
     normal_mode w RTC_TOPIC json_loads c s = (o, s') /\
     trace s' =
       trace s1 ++
       EPublish (RTC_TOPIC "MOTION_SWITCHER")
         (PyDict [("api_id", PyInt 1002); ("parameter", PyDict [("name", PyStr "normal")])])
       :: map ESignal (signals w (clock s1)) ++
       match publish_request_new_outcome c (publishes s1) with
       | inr _ => ESleep 5 :: map ESignal (signals w (S (clock s1)))
       | inl _ => []
       end /\
     (o = Normal tt <-> exists r, publish_request_new_outcome c (publishes s1) = inr r)).
Proof.
  intros Hr Hc H0 Hd Hn s1.
  rewrite (normal_mode_run s response code data name Hr Hc H0 Hd Hn).
  fold s1. rewrite (switch_run s1 name eq_refl). split.
  - intros ->. reflexivity.
  - intros Hne.
    destruct (py_eq_str name "normal") eqn:He; [now apply py_eq_str_true in He|].
    destruct (publish_request_new_outcome c (publishes s1)) as [e|r].
    + exists (Raised e), (switched w RTC_TOPIC s1). split; [reflexivity|]. split.
      * rewrite trace_switched. now rewrite app_nil_r.
      * split; [discriminate|]. intros [r' Hr']. discriminate.
    + exists (Normal tt), (awaited w (ESleep 5) (switched w RTC_TOPIC s1)).
      split; [reflexivity|]. split.
      * rewrite trace_awaited, trace_switched, clock_switched.
        rewrite <- app_assoc. reflexivity.
      * split; eauto.
Qed.

End ModeStep.

(** ** The sequence in a quiet world *)

Section Quiet.

Variable w : World.
Variable RTC_TOPIC : string -> string.
Variable SPORT_CMD : string -> Z.
Variable json_loads : string -> option pyobj.
Variable c : Go2WebRTCConnection.

(** No signal arrives and every request is answered. *)
Hypothesis quiet : forall k, signals w k = [].
Hypothesis answered : forall k, exists r, publish_request_new_outcome c k = inr r.

Lemma awaited_quiet (e : Event) (s : State) : awaited w e s = tick (log e s).
Proof. unfold awaited. now rewrite quiet. Qed.

Lemma steps_ret {R A : Type} (a : A) : steps (@ret R A a) [].
Proof. intros s Hs. exists a, s. rewrite app_nil_r. auto. Qed.

Lemma steps_bind {R A B : Type} (m : M R A) (k : A -> M R B) (t1 t2 : list Event) :
  steps m t1 -> (forall a, steps (k a) t2) -> steps (bind m k) (t1 ++ t2).
Proof.
  intros Hm Hk s Hs. destruct (Hm s Hs) as (a & s1 & Hrun & Ht & Hf).
  destruct (Hk a s1 Hf) as (b & s2 & Hrun2 & Ht2 & Hf2).
  exists b, s2. unfold bind. rewrite Hrun, Hrun2, Ht2, Ht, app_assoc. auto.
Qed.

Lemma steps_sleep {R : Type} (d : Z) : steps (@sleep w R d) [ESleep d].
Proof.
  intros s Hs. exists tt, (tick (log (ESleep d) s)).
  rewrite sleep_run, awaited_quiet. simpl. auto.
Qed.

Lemma steps_publish {R : Type} (tp : string) (pl : pyobj) :
  steps (@publish_request_new w R c tp pl) [EPublish tp pl].
Proof.
  intros s Hs. destruct (answered (publishes s)) as [r Hr].
  exists r, (count_publish (tick (log (EPublish tp pl) s))).
  rewrite publish_run, Hr, awaited_quiet. simpl. auto.
Qed.

Lemma steps_check : steps check_kill_now [ECheck false].
Proof.
  intros s Hs. exists tt, (log (ECheck false) s).
  unfold check_kill_now, bind, read_kill_now. rewrite Hs. simpl. auto.
Qed.

Lemma steps_idle_round (i : Z) : steps (idle_round w i) [ECheck false; ESleep 1].
Proof.
  intros s Hs. exists tt, (tick (log (ESleep 1) (log (ECheck false) s))).
  unfold idle_round, bind, read_kill_now. rewrite Hs.
  unfold ret. cbv beta iota. rewrite sleep_run, awaited_quiet. simpl.
  rewrite <- app_assoc. auto.
Qed.

Lemma steps_rounds (xs : list Z) :
  steps (for_ xs (idle_round w))
    (List.concat (repeat [ECheck false; ESleep 1] (List.length xs))).
Proof.
  induction xs as [|x xs IH]; intros s Hs.
  - exists tt, s. simpl. rewrite app_nil_r. auto.
  - destruct (steps_idle_round x s Hs) as ([] & s1 & Hrun & Ht & Hf).
    destruct (IH s1 Hf) as ([] & s2 & Hrun2 & Ht2 & Hf2).
    exists tt, s2. cbn [for_]. rewrite Hrun, Hrun2, Ht2, Ht.
    cbn [List.length repeat List.concat]. rewrite <- !app_assoc. auto.
Qed.

Lemma steps_idle :
  steps (idle w) (List.concat (repeat [ECheck false; ESleep 1] 600)).
Proof. apply (steps_rounds (range 600)). Qed.

Lemma steps_after_mode :
  steps (check_kill_now ;;
         movements w RTC_TOPIC SPORT_CMD c ;;
         ai_mode w RTC_TOPIC SPORT_CMD c ;;
         idle w)
    ([ECheck false;
      EPublish (RTC_TOPIC "SPORT_MOD") (hello_payload SPORT_CMD);
      ESleep 1;
      EPublish (RTC_TOPIC "SPORT_MOD") (move_payload SPORT_CMD (1 # 2));
      ESleep 3;
      ECheck false;
      EPublish (RTC_TOPIC "SPORT_MOD") (move_payload SPORT_CMD (-1 # 2));
      ESleep 3;
      ECheck false;
      EPublish (RTC_TOPIC "MOTION_SWITCHER") (switch_payload "ai");
      ESleep 10;
      ECheck false;
      EPublish (RTC_TOPIC "SPORT_MOD") (standout_payload SPORT_CMD true);
      ESleep 5;
      EPublish (RTC_TOPIC "SPORT_MOD") (standout_payload SPORT_CMD false)] ++
     List.concat (repeat [ECheck false; ESleep 1] 600)).
Proof.
  apply (steps_bind _ _ [_] _ steps_check). intros _.
  apply (steps_bind _ _ [_; _; _; _; _; _; _; _] _).
  { unfold movements.
    apply (steps_bind _ _ [_] _ (steps_publish _ _)). intros _.
    apply (steps_bind _ _ [_] _ (steps_sleep _)). intros _.
    apply (steps_bind _ _ [_] _ (steps_publish _ _)). intros _.
    apply (steps_bind _ _ [_] _ (steps_sleep _)). intros _.
    apply (steps_bind _ _ [_] _ steps_check). intros _.
    apply (steps_bind _ _ [_] _ (steps_publish _ _)). intros _.
    apply (steps_bind _ _ [_] _ (steps_sleep _)). intros _.
    apply steps_check. }
  intros _.
  apply (steps_bind _ _ [_; _; _; _; _; _] _).
  { unfold ai_mode.
    apply (steps_bind _ _ [_] _ (steps_publish _ _)). intros _.
    apply (steps_bind _ _ [_] _ (steps_sleep _)). intros _.
    apply (steps_bind _ _ [_] _ steps_check). intros _.
    apply (steps_bind _ _ [_] _ (steps_publish _ _)). intros _.
    apply (steps_bind _ _ [_] _ (steps_sleep _)). intros _.
    apply (steps_bind _ _ [_] [] (steps_publish _ _)). intros _.
    apply steps_ret. }
  intros _. apply steps_idle.
Qed.

(** C6: when the flag is unset and stays so (no signal arrives), every
    request is answered and the mode query succeeds with mode [name], the
    sequence completes normally and issues exactly: the mode query; the
    switch to "normal" with its pause of 5 when [name] is not "normal";
    Hello and a pause of 1; the forward move and a pause of 3; the
    backward move and a pause of 3; the switch to "ai" and a pause of 10;
    StandOut true and a pause of 5; StandOut false; then 600 idle rounds,
    each a read of the flag followed by a pause of 1.  Each request occurs
    once: nothing is retried.  [full_sequence] writes every request out,
    topic and payload, independently of the definitions of the script. *)
Theorem command_sequence_order (s : State) (response code data name : pyobj) :
  kill_now (killer s) = false ->
  publish_request_new_outcome c (publishes s) = inr response ->
  status_code response = inr code ->
  py_eq_int code 0 = true ->
  response_data json_loads response = inr data ->
  getitem data "name" = inr name ->
  exists s',
    command_sequence w RTC_TOPIC SPORT_CMD json_loads c s = (Normal tt, s') /\
    trace s' =
      trace s ++ full_sequence RTC_TOPIC SPORT_CMD (negb (py_eq_str name "normal")).
Proof.
  intros Hf Hr Hc H0 Hd Hn.
  unfold command_sequence. unfold bind at 1.
  rewrite (normal_mode_run w RTC_TOPIC json_loads c s response code data name Hr Hc H0 Hd Hn).
  set (s1 := set_mode (Some name) (queried w RTC_TOPIC s)).
  rewrite (switch_run w RTC_TOPIC c s1 name eq_refl).
  assert (Hs1 : kill_now (killer s1) = false /\
                trace s1 = trace s ++ [EPublish (RTC_TOPIC "MOTION_SWITCHER") query_payload]).
  { unfold s1, queried. rewrite awaited_quiet. simpl. auto. }
  destruct Hs1 as [Hf1 Ht1].
  destruct (py_eq_str name "normal"); cbn [negb].
  - destruct (steps_after_mode s1 Hf1) as ([] & s' & Hrun & Ht & _).
    exists s'. split; [exact Hrun|].
    rewrite Ht, Ht1. unfold full_sequence. rewrite <- !app_assoc. reflexivity.
  - destruct (answered (publishes s1)) as [r ->].
    set (s2 := awaited w (ESleep 5) (switched w RTC_TOPIC s1)).
    assert (Hs2 : kill_now (killer s2) = false /\
                  trace s2 = trace s1 ++
                    [EPublish (RTC_TOPIC "MOTION_SWITCHER") (switch_payload "normal");
                     ESleep 5]).
    { unfold s2, switched. rewrite !awaited_quiet. simpl.
      rewrite <- app_assoc. auto. }
    destruct Hs2 as [Hf2 Ht2].
    destruct (steps_after_mode s2 Hf2) as ([] & s' & Hrun & Ht & _).
    exists s'. split; [exact Hrun|].
    rewrite Ht, Ht2, Ht1. unfold full_sequence. rewrite <- !app_assoc. reflexivity.
Qed.

End Quiet.

(** ** A refused mode query in [main] *)

Section Refused.

Variable w : World.
Variable RTC_TOPIC : string -> string.
Variable SPORT_CMD : string -> Z.
Variable json_loads : string -> option pyobj.

(** The connection that [establish] hands over is the one the
    constructor returned. *)
Lemma establish_constructed (s s1 : State) (c : Go2WebRTCConnection) :
  establish w s = (Normal c, s1) -> construct w = inr c.
Proof.
  unfold establish, bind, construct_connection.
  destruct (construct w) as [e|c0]; [discriminate|].
  destruct (connect_with_retry w c0 3 5 (set_conn (Some c0) s)) as [[ok| |r|e] s2];
    try discriminate.
  destruct ok; cbn [negb return_ ret]; [|discriminate].
  rewrite wait_run.
  destruct (wait_datachannel_open_outcome c0); [discriminate|].
  unfold check_kill_now, bind, read_kill_now.
  destruct (kill_now (killer (awaited w (EWaitOpen 30) s2)));
    cbn [return_ ret]; [discriminate|].
  now intros [= -> _].
Qed.

(** When [establish] is through, [conn] is bound to the connection and the
    current-mode local is as unbound as it was. *)
Lemma establish_locals (s s1 : State) (c : Go2WebRTCConnection) :
  current_motion_switcher_mode s = None ->
  establish w s = (Normal c, s1) ->
  conn s1 = Some c /\ current_motion_switcher_mode s1 = None.
Proof.
  intros Hm Hrun. pose proof (establish_constructed s s1 c Hrun) as Hc.
  set (J := fun s : State => conn s = Some c /\ current_motion_switcher_mode s = None).
  assert (H : hoare (fun s => current_motion_switcher_mode s = None)
                (establish w) (fun _ => J) (fun _ => True)).
  { apply inv_establish with (Jn := J); unfold J; auto.
    - intros c' s' Hc' Hs'. rewrite Hc in Hc'. injection Hc' as <-. auto. }
  specialize (H s Hm). now rewrite Hrun in H.
Qed.

(** C8: when the connection is established and the response to the mode
    query carries a nonzero status code, the comparison of the unbound
    current-mode local raises [UnboundLocalError]: after the query nothing
    of the sequence is issued (no Hello, move, mode switch or stance
    request); the catch-all clause logs the error, the cleanup runs and
    [main] returns. *)
Theorem refused_query_skips_sequence (s0 s1 : State) (c : Go2WebRTCConnection)
    (response code : pyobj) :
  establish w (snd (@enter_main unit s0)) = (Normal c, s1) ->
  publish_request_new_outcome c (publishes s1) = inr response ->
  status_code response = inr code ->
  py_eq_int code 0 = false ->
  exists s',
    @main w RTC_TOPIC SPORT_CMD json_loads unit s0 = (Normal tt, s') /\
    trace s' =
      trace s1 ++
      EPublish (RTC_TOPIC "MOTION_SWITCHER") query_payload
      :: map ESignal (signals w (clock s1)) ++
      [ELogError HUnexpected (UnboundLocalError "current_motion_switcher_mode");
       ECleanup;
       ESleep 1] ++
      map ESignal (signals w (S (clock s1))).
Proof.
  intros Hest Hr Hc H0.
  destruct (establish_locals (snd (@enter_main unit s0)) s1 c eq_refl Hest) as [Hconn Hmode].
  set (s2 := queried w RTC_TOPIC s1).
  set (err := UnboundLocalError "current_motion_switcher_mode").
  assert (Htry : main_try w RTC_TOPIC SPORT_CMD json_loads (snd (@enter_main unit s0))
                 = (Raised err, s2)).
  { unfold main_try. unfold bind at 1. rewrite Hest.
    unfold command_sequence. unfold bind at 1.
    unfold normal_mode. unfold bind at 1.
    rewrite (query_refused_run w RTC_TOPIC json_loads c s1 response code Hr Hc H0).
    rewrite switch_unbound_run; [reflexivity|].
    now rewrite mode_queried. }
  assert (Hconn2 : conn s2 = Some c).
  { unfold s2, queried, awaited. simpl. now autorewrite with state. }
  exists (awaited w (ESleep 1) (log ECleanup (log (ELogError HUnexpected err) s2))).
  split.
  - unfold main, call, bind. change (@enter_main unit s0) with
      (@Normal unit unit tt, snd (@enter_main unit s0)). cbv iota.
    unfold try_finally, try_except at 1. rewrite Htry. cbn [main_except is_TimeoutError
      is_ConnectionError is_Exception err emit].
    unfold main_finally. cbn [conn log]. rewrite Hconn2.
    unfold try_except, bind, emit. rewrite sleep_run. reflexivity.
  - rewrite trace_awaited. cbn [trace log clock].
    unfold s2, queried, count_publish. cbn [trace clock].
    rewrite trace_awaited, clock_awaited.
    rewrite <- !app_assoc. reflexivity.
Qed.

End Refused.

(** ** The statements on sample runs *)


(** The always-failing device of C1, run as it is: [max_retries = 4]
    attempts, three pauses, and false. *)
Example connect_with_retry_all_fail :
  let c := Sample.flaky 10 (OtherException "unreachable") in
  let r := @connect_with_retry (Sample.quiet c) unit c 4 7 boot in
  fst r = Normal false /\
  trace (snd r) =
    [EConnect; ESleep 7; EConnect; ESleep 7; EConnect; ESleep 7; EConnect].
Proof. split; reflexivity. Qed.



(** C9 with [max_retries = 0] and with a negative number of retries. *)
Lemma connect_with_retry_no_retries_witness :
  @connect_with_retry (Sample.quiet (Sample.device "normal")) unit
    (Sample.device "normal") 0 5 boot = (Normal false, boot).
Proof.
  apply (connect_with_retry_no_retries (Sample.quiet (Sample.device "normal"))
           (Sample.device "normal") 0 5 unit boot).
  lia.
Defined.

Example connect_with_retry_negative :
  @connect_with_retry (Sample.quiet (Sample.flaky 3 TimeoutError)) unit
    (Sample.flaky 3 TimeoutError) (-2) 5 boot = (Normal false, boot).
Proof. reflexivity. Qed.

(** C3: the pause that follows the greeting (line 103) is not followed by
    a read of the flag, as the pauses of lines 91, 115, 130 and 146 are.
    A SIGINT during that pause (the await number 4) sets the flag, and the
    forward move is still requested when the script wakes; the flag is
    only read, and the sequence left, after the pause of the move. *)
Lemma request_after_signal :
  let t := trace (snd (Sample.run (Sample.interrupted (Sample.device "normal") 4))) in
  t = [EConnect; EWaitOpen 30; ECheck false;
       EPublish "rt/api/motion_switcher/request" (PyDict [("api_id", PyInt 1001)]);
       ECheck false;
       EPublish "rt/api/sport/request" (PyDict [("api_id", PyInt 1016)]);
       ESleep 1;
       ESignal SIGINT;
       EPublish "rt/api/sport/request"
         (PyDict [("api_id", PyInt 1008);
                  ("parameter",
                   PyDict [("x", PyFloat (1 # 2)); ("y", PyInt 0); ("z", PyInt 0)])]);
       ESleep 3; ECheck true; ECleanup; ESleep 1] /\
  ~ no_request_after_signal t.
Proof.
  cbv zeta.
  assert (Ht : trace (snd (Sample.run (Sample.interrupted (Sample.device "normal") 4))) =
    [EConnect; EWaitOpen 30; ECheck false;
       EPublish "rt/api/motion_switcher/request" (PyDict [("api_id", PyInt 1001)]);
       ECheck false;
       EPublish "rt/api/sport/request" (PyDict [("api_id", PyInt 1016)]);
       ESleep 1;
       ESignal SIGINT;
       EPublish "rt/api/sport/request"
         (PyDict [("api_id", PyInt 1008);
                  ("parameter",
                   PyDict [("x", PyFloat (1 # 2)); ("y", PyInt 0); ("z", PyInt 0)])]);
       ESleep 3; ECheck true; ECleanup; ESleep 1]) by (vm_compute; reflexivity).
  split; [exact Ht|]. rewrite Ht. intros H.
  refine (H [_; _; _; _; _; _; _] SIGINT _ _ _ eq_refl _).
  simpl. left. reflexivity.
Qed.

(** The same on the pause that follows the stance (line 161): a SIGINT
    during it (the await number 12) and the revert of the stance is still
    requested; the tail of the trace from that pause on. *)
Example revert_after_signal :
  skipn 17 (trace (snd (Sample.run (Sample.interrupted (Sample.device "normal") 12)))) =
  [ESleep 5; ESignal SIGINT;
   EPublish "rt/api/sport/request"
     (PyDict [("api_id", PyInt 1039); ("parameter", PyDict [("data", PyBool false)])]);
   ECheck true; ECleanup; ESleep 1].
Proof. vm_compute. reflexivity. Qed.

(** C4 on a device that answers the query with status 3. *)
Lemma refused_query_keeps_mode_witness :
  exists s',
    query_motion_mode (Sample.quiet (Sample.refusing 3)) Sample.RTC_TOPIC
      Sample.json_loads (Sample.refusing 3) boot = (Normal tt, s') /\
    current_motion_switcher_mode s' = current_motion_switcher_mode boot.
Proof.
  apply (refused_query_keeps_mode (Sample.quiet (Sample.refusing 3)) Sample.RTC_TOPIC
           Sample.json_loads (Sample.refusing 3) boot
           (Sample.response 3 (Sample.mode_json "normal")) (PyInt 3));
    reflexivity.
Defined.

(** C5 on a device in mode "ai": the switch and its pause are made. *)
Lemma normal_mode_switch_witness :
  let w := Sample.quiet (Sample.device "ai") in
  let s1 := set_mode (Some (PyStr "ai")) (queried w Sample.RTC_TOPIC boot) in
  (PyStr "ai" = PyStr "normal" ->
   normal_mode w Sample.RTC_TOPIC Sample.json_loads (Sample.device "ai") boot
   = (Normal tt, s1)) /\
  (PyStr "ai" <> PyStr "normal" ->
   exists o s',
     normal_mode w Sample.RTC_TOPIC Sample.json_loads (Sample.device "ai") boot
     = (o, s') /\
     trace s' =
       trace s1 ++
       [EPublish "rt/api/motion_switcher/request"
          (PyDict [("api_id", PyInt 1002); ("parameter", PyDict [("name", PyStr "normal")])]);
        ESleep 5] /\
     (o = Normal tt <->
      exists r, publish_request_new_outcome (Sample.device "ai") (publishes s1) = inr r)).
Proof.
  apply (normal_mode_switch (Sample.quiet (Sample.device "ai")) Sample.RTC_TOPIC
           Sample.json_loads (Sample.device "ai") boot
           (Sample.response 0 (Sample.mode_json "ai")) (PyInt 0)
           (PyDict [("name", PyStr "ai")]) (PyStr "ai"));
    reflexivity.
Defined.

(** The same step on a device already in mode "normal", run as it is:
    the query is the only request. *)
Example normal_mode_already_normal :
  let c := Sample.device "normal" in
  let r := normal_mode (Sample.quiet c) Sample.RTC_TOPIC Sample.json_loads c boot in
  fst r = Normal tt /\
  trace (snd r) =
    [EPublish "rt/api/motion_switcher/request" (PyDict [("api_id", PyInt 1001)])].
Proof. split; reflexivity. Qed.

(** C6 on a device in mode "normal" in a world without signals, with the
    sample registries: the requests in their order, each with its topic
    and payload. *)
Lemma command_sequence_order_witness :
  exists s',
    command_sequence (Sample.quiet (Sample.device "normal")) Sample.RTC_TOPIC
      Sample.SPORT_CMD Sample.json_loads (Sample.device "normal") boot
    = (Normal tt, s') /\
    trace s' =
      trace boot ++
      ([EPublish "rt/api/motion_switcher/request" (PyDict [("api_id", PyInt 1001)]);
        ECheck false;
        EPublish "rt/api/sport/request" (PyDict [("api_id", PyInt 1016)]);
        ESleep 1;
        EPublish "rt/api/sport/request"
          (PyDict [("api_id", PyInt 1008);
                   ("parameter",
                    PyDict [("x", PyFloat (1 # 2)); ("y", PyInt 0); ("z", PyInt 0)])]);
        ESleep 3;
        ECheck false;
        EPublish "rt/api/sport/request"
          (PyDict [("api_id", PyInt 1008);
                   ("parameter",
                    PyDict [("x", PyFloat (-1 # 2)); ("y", PyInt 0); ("z", PyInt 0)])]);
        ESleep 3;
        ECheck false;
        EPublish "rt/api/motion_switcher/request"
          (PyDict [("api_id", PyInt 1002); ("parameter", PyDict [("name", PyStr "ai")])]);
        ESleep 10;
        ECheck false;
        EPublish "rt/api/sport/request"
          (PyDict [("api_id", PyInt 1039); ("parameter", PyDict [("data", PyBool true)])]);
        ESleep 5;
        EPublish "rt/api/sport/request"
          (PyDict [("api_id", PyInt 1039); ("parameter", PyDict [("data", PyBool false)])])]
       ++ List.concat (repeat [ECheck false; ESleep 1] 600)).
Proof.
  apply (command_sequence_order (Sample.quiet (Sample.device "normal")) Sample.RTC_TOPIC
           Sample.SPORT_CMD Sample.json_loads (Sample.device "normal")
           (fun k => eq_refl)
           (fun k => ex_intro _ (Sample.response 0 (Sample.mode_json "normal")) eq_refl)
           boot
           (Sample.response 0 (Sample.mode_json "normal")) (PyInt 0)
           (PyDict [("name", PyStr "normal")]) (PyStr "normal"));
    reflexivity.
Defined.

(** The same sequence on a device in mode "ai", run as it is: the switch
    to "normal" and its pause come right after the query. *)
Example command_sequence_with_switch :
  let c := Sample.device "ai" in
  let r := command_sequence (Sample.quiet c) Sample.RTC_TOPIC Sample.SPORT_CMD
             Sample.json_loads c boot in
  fst r = Normal tt /\
  firstn 6 (trace (snd r)) =
    [EPublish "rt/api/motion_switcher/request" (PyDict [("api_id", PyInt 1001)]);
     EPublish "rt/api/motion_switcher/request"
       (PyDict [("api_id", PyInt 1002); ("parameter", PyDict [("name", PyStr "normal")])]);
     ESleep 5;
     ECheck false;
     EPublish "rt/api/sport/request" (PyDict [("api_id", PyInt 1016)]);
     ESleep 1] /\
  List.length (trace (snd r)) = 1218%nat.
Proof. vm_compute. repeat split. Qed.

(** C8 on a device that answers the query with status 3. *)
Lemma refused_query_skips_sequence_witness :
  let w := Sample.quiet (Sample.refusing 3) in
  exists s',
    @main w Sample.RTC_TOPIC Sample.SPORT_CMD Sample.json_loads unit boot
    = (Normal tt, s') /\
    trace s' =
      [EConnect; EWaitOpen 30; ECheck false;
       EPublish "rt/api/motion_switcher/request" (PyDict [("api_id", PyInt 1001)]);
       ELogError HUnexpected (UnboundLocalError "current_motion_switcher_mode");
       ECleanup; ESleep 1].
Proof.
  cbv zeta.
  apply (refused_query_skips_sequence (Sample.quiet (Sample.refusing 3)) Sample.RTC_TOPIC
           Sample.SPORT_CMD Sample.json_loads boot
           (snd (establish (Sample.quiet (Sample.refusing 3)) (snd (@enter_main unit boot))))
           (Sample.refusing 3)
           (Sample.response 3 (Sample.mode_json "normal")) (PyInt 3));
    reflexivity.
Defined.

(** ** More on the bootstrapper: any connection object *)

Section RetryAny.

Variable w : World.
Variable c : Go2WebRTCConnection.
Variables max_retries delay : Z.

Lemma retry_events_signals (l : list signum) :
  Forall (retry_event delay) (map ESignal l).
Proof.
  induction l as [|sg l IH]; simpl; constructor; auto.
  right. right. reflexivity.
Qed.

Lemma count_signals (p : Event -> bool) (l : list signum) :
  (forall sg, p (ESignal sg) = false) -> count p (map ESignal l) = 0%nat.
Proof.
  intros Hp. unfold count. induction l as [|sg l IH]; simpl; [reflexivity|].
  now rewrite Hp.
Qed.

Lemma count_cons (p : Event -> bool) (e : Event) (t : list Event) :
  count p (e :: t) = ((if p e then 1 else 0) + count p t)%nat.
Proof. unfold count. simpl. now destruct (p e). Qed.

(** The loop from attempt [a] on, whatever the attempts answer. *)
Lemma retry_loop_any (len : nat) :
  forall (a : nat) (s : State),
    (a + len)%nat = Z.to_nat max_retries ->
    exists o s' t,
      for_ (map Z.of_nat (seq a len)) (attempt_round w c max_retries delay) s = (o, s') /\
      trace s' = trace s ++ t /\
      Forall (retry_event delay) t /\
      (count is_connect t <= len)%nat /\
      connects s' = (connects s + count is_connect t)%nat /\
      ((len = 0%nat /\ t = [] /\ o = Normal tt) \/
       ((count is_sleep t + 1 <= count is_connect t)%nat /\
        ((exists b, o = Returned b) \/
         (exists e k, o = Raised e /\ is_Exception e = false /\ (k < len)%nat /\
                      connect_outcome c (connects s + k) = Some e)))).
Proof.
  induction len as [|len IH]; intros a s Hlen.
  - exists (Normal tt), s, []. simpl. rewrite app_nil_r, Nat.add_0_r.
    repeat split; auto.
  - cbn [seq map for_]. rewrite attempt_round_run. cbv zeta.
    set (s1 := count_connect (awaited w EConnect s)).
    assert (Ht1 : trace s1 = trace s ++ EConnect :: map ESignal (signals w (clock s)))
      by apply trace_awaited.
    assert (Hc1 : connects s1 = S (connects s))
      by (unfold s1, awaited; simpl; now autorewrite with state).
    assert (Hev : Forall (retry_event delay) (EConnect :: map ESignal (signals w (clock s)))).
    { constructor; [now left|apply retry_events_signals]. }
    assert (Hn1 : count is_connect (EConnect :: map ESignal (signals w (clock s))) = 1%nat).
    { rewrite count_cons, count_signals; auto. }
    assert (Hs1 : count is_sleep (EConnect :: map ESignal (signals w (clock s))) = 0%nat).
    { rewrite count_cons, count_signals; auto. }
    destruct (connect_outcome c (connects s)) as [e|] eqn:Hout.
    + destruct (is_Exception e) eqn:He.
      * destruct (Z.of_nat a <? max_retries - 1) eqn:Hlast.
        -- apply Z.ltb_lt in Hlast. destruct len as [|len']; [lia|].
           set (s2 := awaited w (ESleep delay) s1).
           destruct (IH (S a) s2) as (o & s' & t & Hrun & Htr & Hall & Hcn & Hcs & Hend);
             [lia|].
           assert (Ht2 : trace s2 = trace s1 ++ ESleep delay :: map ESignal (signals w (clock s1)))
             by apply trace_awaited.
           assert (Hc2 : connects s2 = connects s1)
             by (unfold s2, awaited; now autorewrite with state).
           exists o, s',
             ((EConnect :: map ESignal (signals w (clock s))) ++
              (ESleep delay :: map ESignal (signals w (clock s1))) ++ t).
           split; [exact Hrun|]. split.
           { rewrite Htr, Ht2, Ht1, <- !app_assoc. reflexivity. }
           split.
           { apply Forall_app. split; [exact Hev|]. apply Forall_app. split; [|exact Hall].
             constructor; [right; now left|apply retry_events_signals]. }
           rewrite !count_app, Hn1, Hs1.
           rewrite (count_cons is_connect (ESleep delay)), (count_cons is_sleep (ESleep delay)).
           rewrite !count_signals by auto. cbn [is_connect is_sleep].
           split; [lia|]. split; [lia|]. right.
           destruct Hend as [(Hl & _)|[Hle Hend]]; [discriminate|].
           split; [lia|].
           destruct Hend as [Hb|(e' & k & Ho & He' & Hk & Hk')]; [now left|right].
           exists e', (S k). repeat split; auto; [lia|].
           rewrite Hc2, Hc1 in Hk'. now rewrite Nat.add_succ_r.
        -- exists (Returned false), s1, (EConnect :: map ESignal (signals w (clock s))).
           rewrite Hn1, Hs1. repeat split; auto; try lia.
           right. split; [lia|]. left. eauto.
      * exists (Raised e), s1, (EConnect :: map ESignal (signals w (clock s))).
        rewrite Hn1, Hs1. repeat split; auto; try lia.
        right. split; [lia|]. right. exists e, 0%nat.
        rewrite Nat.add_0_r. repeat split; auto. lia.
    + exists (Returned true), s1, (EConnect :: map ESignal (signals w (clock s))).
      rewrite Hn1, Hs1. repeat split; auto; try lia.
      right. split; [lia|]. left. eauto.
Qed.

(** What a call leaves alone. *)
Lemma connect_with_retry_frame (R : Type) (s : State) :
  let s' := snd (@connect_with_retry w R c max_retries delay s) in
  conn s' = conn s /\
  current_motion_switcher_mode s' = current_motion_switcher_mode s /\
  publishes s' = publishes s.
Proof.
  cbv zeta.
  set (J := fun s' : State =>
              conn s' = conn s /\
              current_motion_switcher_mode s' = current_motion_switcher_mode s /\
              publishes s' = publishes s).
  apply (hoare_final J J); [|unfold J; auto].
  apply inv_connect_with_retry with (Jn := J); unfold J; auto.
Qed.

(** X1: whatever the connection object does, a call attempts at most
    [max_retries] times; either it does nothing (as with
    [max_retries <= 0], where no attempt is allowed) or it pauses fewer
    times than it attempts; it does nothing but attempt, pause for [delay] and be
    interrupted by the handler, and leaves the locals of [main] and the
    count of requests as they are. *)
Theorem connect_with_retry_bounded (R : Type) (s : State) :
  exists o s' t,
    @connect_with_retry w R c max_retries delay s = (o, s') /\
    trace s' = trace s ++ t /\
    Forall (retry_event delay) t /\
    (count is_connect t <= Z.to_nat max_retries)%nat /\
    (t = [] \/ (count is_sleep t < count is_connect t)%nat) /\
    connects s' = (connects s + count is_connect t)%nat /\
    conn s' = conn s /\
    current_motion_switcher_mode s' = current_motion_switcher_mode s /\
    publishes s' = publishes s.
Proof.
  pose proof (connect_with_retry_frame R s) as Hframe. cbv zeta in Hframe.
  rewrite connect_with_retry_unfold in *. unfold call, bind, range in *.
  destruct (retry_loop_any (Z.to_nat max_retries) 0%nat s eq_refl)
    as (o & s' & t & Hrun & Htr & Hall & Hcn & Hcs & Hend).
  rewrite Hrun in *.
  assert (Hsl : t = [] \/ (count is_sleep t < count is_connect t)%nat).
  { destruct Hend as [(_ & -> & _)|[Hle _]]; [now left|right; lia]. }
  destruct o as [[]| |b|e]; simpl in Hframe.
  - exists (Normal false), s', t. tauto.
  - destruct Hend as [(_ & _ & Ho)|[_ [[b Ho]|(e & k & Ho & _)]]]; discriminate.
  - exists (Normal b), s', t. tauto.
  - exists (Raised e), s', t. tauto.
Qed.

(** X2: a call only raises what an attempt raised, and only when that is not
    an [Exception]. *)
Theorem connect_with_retry_escape (R : Type) (s s' : State) (e : exn) :
  @connect_with_retry w R c max_retries delay s = (Raised e, s') ->
  is_Exception e = false /\
  exists k, (k < Z.to_nat max_retries)%nat /\
            connect_outcome c (connects s + k) = Some e.
Proof.
  rewrite connect_with_retry_unfold. unfold call, bind, range.
  destruct (retry_loop_any (Z.to_nat max_retries) 0%nat s eq_refl)
    as (o & s1 & t & Hrun & _ & _ & _ & _ & Hend).
  rewrite Hrun.
  destruct Hend as [(_ & _ & ->)|[_ [[b ->]|(e' & k & -> & He & Hk & Hk')]]];
    try discriminate.
  intros [= <- _]. eauto.
Qed.

End RetryAny.

(** ** More on [main]: failures *)

Section MainFailures.

Variable w : World.
Variable RTC_TOPIC : string -> string.
Variable SPORT_CMD : string -> Z.
Variable json_loads : string -> option pyobj.

Lemma mode_awaited (e : Event) (s : State) :
  current_motion_switcher_mode (awaited w e s) = current_motion_switcher_mode s.
Proof. unfold awaited. now autorewrite with state. Qed.

Lemma conn_awaited (e : Event) (s : State) : conn (awaited w e s) = conn s.
Proof. unfold awaited. now autorewrite with state. Qed.

(** The cleanup as an equation. *)
Lemma main_finally_run (s : State) :
  main_finally w s =
  match conn s with
  | Some _ => (Normal tt, awaited w (ESleep 1) (log ECleanup s))
  | None => (Normal tt, s)
  end.
Proof.
  unfold main_finally. destruct (conn s); [|reflexivity].
  unfold try_except, bind, emit. now rewrite sleep_run.
Qed.

(** What the cleanup adds to the trace in state [s]. *)
Lemma trace_main_finally (s : State) :
  trace (snd (main_finally w s)) =
  trace s ++
  match conn s with
  | Some _ => ECleanup :: ESleep 1 :: map ESignal (signals w (clock s))
  | None => []
  end.
Proof.
  rewrite main_finally_run. destruct (conn s); simpl.
  - rewrite trace_awaited. simpl. now rewrite <- app_assoc.
  - now rewrite app_nil_r.
Qed.

Lemma main_except_run (e : exn) :
  is_Exception e = true ->
  main_except e = Some (emit (ELogError (handler_for e) e)).
Proof.
  intros He. unfold main_except, handler_for. rewrite He.
  destruct (is_TimeoutError e); [reflexivity|].
  destruct (is_ConnectionError e); reflexivity.
Qed.

Lemma main_except_base (e : exn) : is_Exception e = false -> main_except e = None.
Proof. unfold main_except. destruct e; simpl; congruence. Qed.

(** X4: an exception that leaves the [try] of [main] in state [s2]: when it is
    an [Exception] it is logged once, by the clause of its class, the
    cleanup follows and [main] returns; otherwise the cleanup runs and the
    exception leaves [main].  The cleanup is what line 191 allows: nothing
    when [conn] is still [None]. *)
Theorem main_on_exception (s0 s2 : State) (e : exn) :
  main_try w RTC_TOPIC SPORT_CMD json_loads (snd (@enter_main unit s0)) = (Raised e, s2) ->
  let cleanup :=
    match conn s2 with
    | Some _ => ECleanup :: ESleep 1 :: map ESignal (signals w (clock s2))
    | None => []
    end in
  exists s',
    @main w RTC_TOPIC SPORT_CMD json_loads unit s0 =
      ((if is_Exception e then Normal tt else Raised e), s') /\
    trace s' =
      trace s2 ++
      (if is_Exception e then [ELogError (handler_for e) e] else []) ++ cleanup.
Proof.
  intros Htry. cbv zeta.
  unfold main, call, bind.
  change (@enter_main unit s0) with (@Normal unit unit tt, snd (@enter_main unit s0)).
  cbv iota. unfold try_finally, try_except at 1. rewrite Htry.
  destruct (is_Exception e) eqn:He.
  - rewrite (main_except_run e He). cbn [emit].
    pose proof (trace_main_finally (log (ELogError (handler_for e) e) s2)) as Htr.
    pose proof (main_finally_normal w (log (ELogError (handler_for e) e) s2)) as Hn.
    destruct (main_finally w (log (ELogError (handler_for e) e) s2)) as [o s3].
    simpl in Hn. subst o. exists s3. split; [reflexivity|].
    simpl in Htr. rewrite Htr, <- app_assoc. reflexivity.
  - rewrite (main_except_base e He).
    pose proof (trace_main_finally s2) as Htr.
    pose proof (main_finally_normal w s2) as Hn.
    destruct (main_finally w s2) as [o s3].
    simpl in Hn. subst o. exists s3. split; [reflexivity|].
    simpl in Htr. exact Htr.
Qed.

(** X3: when the connection object is there and the three attempts all fail
    with an [Exception], [main] gives up: it neither waits for the data
    channel nor issues a request, runs the cleanup and returns. *)
Theorem main_gives_up (s0 : State) (c : Go2WebRTCConnection) :
  construct w = inr c ->
  (forall k, (k < 3)%nat ->
     exists e, connect_outcome c (connects s0 + k) = Some e /\ is_Exception e = true) ->
  exists s',
    @main w RTC_TOPIC SPORT_CMD json_loads unit s0 = (Normal tt, s') /\
    actions (trace s') =
      actions (trace s0) ++
      [EConnect; ESleep 5; EConnect; ESleep 5; EConnect; ECleanup; ESleep 1].
Proof.
  intros Hc Hfail.
  set (s00 := snd (@enter_main unit s0)).
  set (s01 := set_conn (Some c) s00).
  assert (Hexc : forall k e, (k < Z.to_nat 3)%nat ->
            connect_outcome c (connects s01 + k) = Some e -> is_Exception e = true).
  { intros k e Hk Hout. destruct (Hfail k Hk) as (e' & He' & Hx).
    unfold s01, s00 in Hout. simpl in Hout. congruence. }
  destruct (connect_with_retry_run w c 3 5 unit s01 Hexc)
    as (result & s1 & t & Hrun & Htr & Hres).
  assert (Hnone : first_success (connect_outcome c) (connects s01) (Z.to_nat 3) = None).
  { change (connects s01) with (connects s0). change (Z.to_nat 3) with 3%nat.
    destruct (Hfail 0%nat) as (e0 & H0 & _); [lia|].
    destruct (Hfail 1%nat) as (e1 & H1 & _); [lia|].
    destruct (Hfail 2%nat) as (e2 & H2 & _); [lia|].
    rewrite Nat.add_0_r in H0. rewrite Nat.add_1_r in H1.
    replace (connects s0 + 2)%nat with (S (S (connects s0))) in H2 by lia.
    simpl. now rewrite H0, H1, H2. }
  rewrite Hnone in Hres. destruct Hres as [-> Hact]. change (Z.to_nat 3) with 3%nat in Hact.
  pose proof (connect_with_retry_frame w c 3 5 unit s01) as Hframe.
  cbv zeta in Hframe. rewrite Hrun in Hframe. destruct Hframe as (Hconn & _ & _).
  change (conn s1 = Some c) in Hconn.
  assert (Htry : try_except (main_try w RTC_TOPIC SPORT_CMD json_loads) main_except s00
                 = (Returned tt, s1)).
  { unfold try_except, main_try, establish, bind, construct_connection.
    rewrite Hc. fold s01. rewrite Hrun. reflexivity. }
  exists (awaited w (ESleep 1) (log ECleanup s1)). split.
  - unfold main, call, bind.
    change (@enter_main unit s0) with (@Normal unit unit tt, s00).
    cbv iota. unfold try_finally. rewrite Htry, main_finally_run, Hconn. reflexivity.
  - rewrite trace_awaited. cbn [trace log]. rewrite Htr.
    change (trace s01) with (trace s0).
    rewrite !actions_app, Hact. simpl. rewrite actions_signals.
    rewrite <- !app_assoc. reflexivity.
Qed.

(** X5: the except clauses of the module body add nothing: [main] lets no
    [Exception] out, so that the clause of lines 204-206 never runs, and
    the state (with the trace) at the end of the script is the one in
    which [main] ended. *)
Theorem script_adds_nothing (s : State) :
  snd (script w RTC_TOPIC SPORT_CMD json_loads s) =
  snd (@main w RTC_TOPIC SPORT_CMD json_loads unit s).
Proof.
  unfold script, try_finally, sys_exit, raise, try_except.
  pose proof (main_outcome w RTC_TOPIC SPORT_CMD json_loads unit s) as Hout.
  destruct (@main w RTC_TOPIC SPORT_CMD json_loads unit s) as [[[]| |[]|e] s1];
    try reflexivity.
  specialize (Hout e eq_refl).
  destruct e; simpl in Hout; try discriminate; reflexivity.
Qed.

(** X6: the mode step only completes when the query succeeded: started with
    the current-mode local unbound, as in [main], it completes normally
    only if the query was answered with a status code equal to 0, and the
    local is then bound. *)
Theorem normal_mode_completes (c : Go2WebRTCConnection) (s s' : State) :
  current_motion_switcher_mode s = None ->
  normal_mode w RTC_TOPIC json_loads c s = (Normal tt, s') ->
  exists response code name,
    publish_request_new_outcome c (publishes s) = inr response /\
    status_code response = inr code /\
    py_eq_int code 0 = true /\
    current_motion_switcher_mode s' = Some name.
Proof.
  intros Hm. unfold normal_mode. unfold bind at 1. unfold query_motion_mode.
  unfold bind at 1. rewrite publish_run.
  destruct (publish_request_new_outcome c (publishes s)) as [e|response] eqn:Hr;
    [discriminate|].
  fold (queried w RTC_TOPIC s). unfold bind at 1.
  destruct (status_code response) as [e|code] eqn:Hc; cbn [lift raise ret];
    [discriminate|].
  destruct (py_eq_int code 0) eqn:H0.
  - unfold bind at 1.
    destruct (response_data json_loads response) as [e|data]; cbn [lift raise ret];
      [discriminate|].
    unfold bind at 1.
    destruct (getitem data "name") as [e|name]; cbn [lift raise ret store_current_mode];
      [discriminate|].
    rewrite (switch_run w RTC_TOPIC c (set_mode (Some name) (queried w RTC_TOPIC s)) name eq_refl).
    intros Hrun. exists response, code, name. repeat split; auto.
    destruct (py_eq_str name "normal").
    + injection Hrun as <-. reflexivity.
    + destruct (publish_request_new_outcome c
                  (publishes (set_mode (Some name) (queried w RTC_TOPIC s))));
        [discriminate|].
      injection Hrun as <-.
      rewrite mode_awaited. unfold switched, count_publish.
      cbn [current_motion_switcher_mode]. now rewrite mode_awaited.
  - cbn [ret]. rewrite switch_unbound_run; [discriminate|].
    now rewrite mode_queried.
Qed.

End MainFailures.

(** ** Requests come after the connection, the wait and a read of the flag *)

Section Guarded.

Variable w : World.
Variable RTC_TOPIC : string -> string.
Variable SPORT_CMD : string -> Z.
Variable json_loads : string -> option pyobj.

(** A call of [connect_with_retry] by its trace. *)
Lemma connect_with_retry_trace (R : Type) (c : Go2WebRTCConnection)
    (max_retries delay : Z) (s : State) :
  exists o s' t,
    @connect_with_retry w R c max_retries delay s = (o, s') /\
    trace s' = trace s ++ t /\
    Forall (retry_event delay) t /\
    (count is_connect t <= Z.to_nat max_retries)%nat /\
    (count is_sleep t <= Z.to_nat max_retries - 1)%nat /\
    (o = Normal true -> In EConnect t).
Proof.
  rewrite connect_with_retry_unfold. unfold call, bind, range.
  destruct (retry_loop_any w c max_retries delay (Z.to_nat max_retries) 0%nat s eq_refl)
    as (o & s' & t & Hrun & Htr & Hall & Hcn & _ & Hend).
  rewrite Hrun.
  assert (Hsl : (count is_sleep t <= Z.to_nat max_retries - 1)%nat).
  { destruct Hend as [(_ & -> & _)|[Hle _]]; [apply Nat.le_0_l|lia]. }
  assert (Hin : (1 <= count is_connect t)%nat -> In EConnect t).
  { unfold count. intros H1.
    destruct (filter is_connect t) as [|e l] eqn:Hf; [simpl in H1; lia|].
    assert (He : In e (filter is_connect t)) by (rewrite Hf; now left).
    apply filter_In in He. destruct He as [He Hp]. destruct e; try discriminate. exact He. }
  destruct Hend as [(_ & -> & ->)|[Hle [[b ->]|(e & k & -> & _)]]].
  - exists (Normal false), s', []. repeat split; auto. discriminate.
  - exists (Normal b), s', t. repeat split; auto. intros _. apply Hin. lia.
  - exists (Raised e), s', t. repeat split; auto. discriminate.
Qed.

Lemma no_request_guarded (s : State) : no_request s -> requests_guarded (trace s).
Proof.
  intros Hs pre tp pl post Ht. destruct (Hs tp pl). rewrite Ht.
  apply in_or_app. simpl. auto.
Qed.

Lemma no_request_log (e : Event) (s : State) :
  is_publish e = false -> no_request s -> no_request (log e s).
Proof.
  intros He Hs tp pl Hin. simpl in Hin. apply in_app_or in Hin.
  destruct Hin as [Hin|[->|[]]]; [now apply (Hs tp pl)|discriminate].
Qed.

Lemma no_request_extend (s s' : State) (t : list Event) :
  trace s' = trace s ++ t ->
  (forall tp pl, ~ In (EPublish tp pl) t) ->
  no_request s -> no_request s'.
Proof.
  intros Ht Hno Hs tp pl Hin. rewrite Ht in Hin. apply in_app_or in Hin.
  destruct Hin as [Hin|Hin]; [now apply (Hs tp pl)|now apply (Hno tp pl)].
Qed.

Lemma no_request_signals (l : list signum) (tp : string) (pl : pyobj) :
  ~ In (EPublish tp pl) (map ESignal l).
Proof. induction l as [|sg l IH]; simpl; [auto|]. intros [H|H]; [discriminate|auto]. Qed.

Lemma requests_guarded_snoc (t : list Event) (e : Event) :
  requests_guarded t ->
  (is_publish e = true ->
   In EConnect t /\ In (EWaitOpen 30) t /\ In (ECheck false) t) ->
  requests_guarded (t ++ [e]).
Proof.
  intros Ht He pre tp pl post H. apply snoc_split in H.
  destruct H as [(_ & -> & ->)|(post' & _ & ->)].
  - now apply He.
  - now apply (Ht pre tp pl post').
Qed.

Lemma guarded_log (e : Event) (s : State) : guarded s -> guarded (log e s).
Proof.
  intros (Hg & H1 & H2 & H3). unfold guarded. simpl.
  split; [apply requests_guarded_snoc; auto|].
  repeat split; apply in_or_app; auto.
Qed.

Lemma requests_guarded_log (e : Event) (s : State) :
  is_publish e = false ->
  requests_guarded (trace s) -> requests_guarded (trace (log e s)).
Proof.
  intros He Hs. simpl. apply requests_guarded_snoc; [exact Hs|].
  rewrite He. discriminate.
Qed.

Lemma establish_guarded : hoare no_request (establish w) (fun _ => guarded) no_request.
Proof.
  unfold establish.
  eapply hoare_bind with (Q1 := fun _ => no_request).
  { intros s Hs. unfold construct_connection. destruct (construct w); exact Hs. }
  intros c.
  eapply hoare_bind with
    (Q1 := fun ok s => no_request s /\ (ok = true -> In EConnect (trace s))).
  { intros s Hs.
    destruct (connect_with_retry_trace unit c 3 5 s)
      as (o & s' & t & Hrun & Htr & Hall & _ & _ & Hin).
    assert (Hno : no_request s').
    { apply (no_request_extend s s' t Htr); [|exact Hs].
      intros tp pl H. rewrite Forall_forall in Hall.
      destruct (Hall _ H) as [He|[He|He]]; discriminate. }
    rewrite Hrun. destruct o as [ok| | |]; try exact Hno.
    split; [exact Hno|]. intros ->. rewrite Htr. apply in_or_app. auto. }
  intros ok.
  eapply hoare_bind with (Q1 := fun _ s => no_request s /\ In EConnect (trace s)).
  { destruct ok; cbn [negb].
    - apply hoare_ret. intros s [Hs Hin]. auto.
    - apply hoare_return. tauto. }
  intros ?.
  eapply hoare_bind with
    (Q1 := fun _ s => no_request s /\ In EConnect (trace s) /\ In (EWaitOpen 30) (trace s)).
  { intros s [Hs Hin]. rewrite wait_run.
    assert (Hno : no_request (awaited w (EWaitOpen 30) s)).
    { apply (no_request_extend s _ _ (trace_awaited w _ s)); [|exact Hs].
      intros tp pl [H|H]; [discriminate|]. now apply no_request_signals in H. }
    destruct (wait_datachannel_open_outcome c); [exact Hno|].
    split; [exact Hno|]. rewrite trace_awaited.
    split; apply in_or_app; simpl; auto. }
  intros ?.
  eapply hoare_bind with (Q1 := fun _ => guarded).
  { intros s (Hs & H1 & H2). unfold check_kill_now, bind, read_kill_now.
    destruct (kill_now (killer s)); cbn [return_ ret].
    - now apply no_request_log.
    - split; [apply no_request_guarded; now apply no_request_log|].
      simpl. repeat split; apply in_or_app; simpl; auto. }
  intros ?. now apply hoare_ret.
Qed.

Lemma main_try_guarded :
  hoare no_request (main_try w RTC_TOPIC SPORT_CMD json_loads)
    (fun _ s => requests_guarded (trace s)) (fun s => requests_guarded (trace s)).
Proof.
  unfold main_try.
  eapply hoare_bind with (Q1 := fun _ => guarded).
  - eapply hoare_conseq; [apply establish_guarded| | |]; auto.
    exact no_request_guarded.
  - intros c.
    apply inv_command_sequence with
      (Jn := guarded) (paired := fun _ _ => True); auto using guarded_log.
    + intros s sg Hs. now apply guarded_log.
    + intros s Hs. apply Hs.
    + intros s Hs _. apply (guarded_log (ECheck true) s Hs).
Qed.

Lemma script_guarded :
  requests_guarded (trace (snd (script w RTC_TOPIC SPORT_CMD json_loads boot))).
Proof.
  set (Ja := fun s : State => requests_guarded (trace s)).
  assert (Hlog : forall e s, is_publish e = false -> Ja s -> Ja (log e s))
    by (intros e s He Hs; now apply requests_guarded_log).
  assert (Hdel : forall l s, Ja s -> Ja (deliver l s)).
  { induction l as [|sg l IH]; intros s Hs; simpl; [exact Hs|].
    apply IH. apply (Hlog (ESignal sg)); [reflexivity|exact Hs]. }
  assert (Hfin : hoare Ja (main_finally w) (fun _ => Ja) Ja).
  { intros s Hs. rewrite main_finally_run. destruct (conn s); [|exact Hs].
    unfold awaited. apply Hdel. apply (Hlog (ESleep 1)); [reflexivity|].
    apply (Hlog ECleanup); [reflexivity|exact Hs]. }
  apply (hoare_final (fun s => trace s = []) Ja); [|reflexivity].
  unfold script.
  eapply hoare_try_finally with (Q1 := fun _ => Ja) (E1 := Ja);
    [|intros ?; now apply hoare_raise|now apply hoare_raise].
  eapply hoare_try_except with (E1 := Ja); [| |auto].
  - unfold main. eapply hoare_call with (E1 := Ja); [|auto|auto].
    eapply hoare_bind with (Q1 := fun _ => no_request).
    { intros s Hs tp pl. simpl. now rewrite Hs. }
    intros ?. eapply hoare_try_finally; [|intros ?; exact Hfin|exact Hfin].
    eapply hoare_try_except with (E1 := Ja); [apply main_try_guarded| |auto].
    intros e h He. unfold main_except in He.
    destruct (is_TimeoutError e);
      [injection He as He; subst h; intros s Hs; now apply Hlog|].
    destruct (is_ConnectionError e);
      [injection He as He; subst h; intros s Hs; now apply Hlog|].
    destruct (is_Exception e);
      [injection He as He; subst h; intros s Hs; now apply Hlog|].
    discriminate.
  - intros e h He.
    assert (Hh : h = ret tt \/ h = emit (ELogError HFatal e)).
    { destruct e; simpl in He; try discriminate; injection He as He; subst h; auto. }
    destruct Hh as [-> | ->]; intros s Hs; simpl; [exact Hs|].
    now apply (Hlog (ELogError HFatal e)).
Qed.

(** X7: in every run, a request is only issued after an attempt to
    connect, after the wait for the data channel and after a read of the
    flag that gave false. *)
Theorem requests_are_guarded :
  requests_guarded (trace (snd (script w RTC_TOPIC SPORT_CMD json_loads boot))).
Proof. exact script_guarded. Qed.

(** X8: a signal that arrives before the flag is first read prevents every
    request: when the handler runs before any read of the flag, the run
    issues no request at all. *)
Theorem early_signal_no_request (pre post : list Event) (sg : signum) :
  trace (snd (script w RTC_TOPIC SPORT_CMD json_loads boot)) = pre ++ ESignal sg :: post ->
  (forall b, ~ In (ECheck b) pre) ->
  forall tp pl,
    ~ In (EPublish tp pl) (trace (snd (script w RTC_TOPIC SPORT_CMD json_loads boot))).
Proof.
  intros Ht Hpre tp pl Hin.
  destruct (flag_script w RTC_TOPIC SPORT_CMD json_loads) as [_ Hreads].
  pose proof script_guarded as Hg.
  set (t := trace (snd (script w RTC_TOPIC SPORT_CMD json_loads boot))) in *.
  apply in_split in Hin. destruct Hin as (p1 & p2 & Hp).
  destruct (Hg p1 tp pl p2 Hp) as (_ & _ & Hck).
  apply in_split in Hck. destruct Hck as (q1 & q2 & Hq).
  assert (Hno : ~ signalled q1).
  { intros Hs. apply (Hreads q1 false (q2 ++ EPublish tp pl :: p2)) in Hs; [discriminate|].
    rewrite Hp, Hq, <- app_assoc. reflexivity. }
  assert (Heq : pre ++ ESignal sg :: post = q1 ++ ECheck false :: q2 ++ EPublish tp pl :: p2).
  { rewrite <- Ht, Hp, Hq, <- app_assoc. reflexivity. }
  apply app_eq_app in Heq. destruct Heq as [l [[H1 H2]|[H1 H2]]].
  - destruct l as [|x l]; simpl in H2.
    + apply (Hpre false). rewrite H1, app_nil_r.
      injection H2 as H2 _. discriminate.
    + injection H2 as <- H2. apply (Hpre false). rewrite H1.
      apply in_or_app. simpl. auto.
  - destruct l as [|x l]; simpl in H2.
    + injection H2 as H2 _. discriminate.
    + injection H2 as <- H2. apply Hno. exists sg. rewrite H1.
      apply in_or_app. simpl. auto.
Qed.

End Guarded.

(** ** The idle loop *)

Section Idle.

Variable w : World.

Lemma idle_round_run (i : Z) (s : State) :
  idle_round w i s =
  if kill_now (killer s)
  then (Break, log (ECheck true) s)
  else (Normal tt, awaited w (ESleep 1) (log (ECheck false) s)).
Proof.
  unfold idle_round, bind, read_kill_now.
  destruct (kill_now (killer s)); [reflexivity|].
  unfold ret. cbv beta iota. now rewrite sleep_run.
Qed.

Lemma kill_now_awaited (e : Event) (s : State) :
  kill_now (killer (awaited w e s)) =
  match signals w (clock s) with
  | [] => kill_now (killer s)
  | _ => true
  end.
Proof. unfold awaited. now autorewrite with state. Qed.

(** Rounds that stop: no signal during the first [k] pauses, one during
    the next pause, and at least one more round to read the flag. *)
Lemma rounds_stop (k : nat) :
  forall (xs : list Z) (s : State),
    kill_now (killer s) = false ->
    (S k < List.length xs)%nat ->
    (forall i, (i < k)%nat -> signals w (clock s + i) = []) ->
    signals w (clock s + k) <> [] ->
    exists s',
      for_ xs (idle_round w) s = (Normal tt, s') /\
      actions (trace s') =
        actions (trace s) ++
        List.concat (repeat [ECheck false; ESleep 1] (S k)) ++ [ECheck true].
Proof.
  induction k as [|k IH]; intros xs s Hf Hlen Hquiet Hsig.
  - destruct xs as [|x [|y xs]]; simpl in Hlen; try lia.
    cbn [for_]. rewrite idle_round_run, Hf.
    set (s1 := awaited w (ESleep 1) (log (ECheck false) s)).
    assert (Hf1 : kill_now (killer s1) = true).
    { unfold s1. rewrite kill_now_awaited. cbn [clock log].
      rewrite Nat.add_0_r in Hsig. destruct (signals w (clock s)); [contradiction|reflexivity]. }
    rewrite idle_round_run, Hf1.
    exists (log (ECheck true) s1). split; [reflexivity|].
    cbn [trace log]. unfold s1. rewrite trace_awaited. cbn [trace log].
    rewrite !actions_app. simpl. rewrite actions_signals. simpl.
    rewrite <- !app_assoc. reflexivity.
  - destruct xs as [|x xs]; simpl in Hlen; [lia|].
    cbn [for_]. rewrite idle_round_run, Hf.
    set (s1 := awaited w (ESleep 1) (log (ECheck false) s)).
    assert (H0 : signals w (clock s) = []).
    { rewrite <- (Nat.add_0_r (clock s)). apply Hquiet. lia. }
    assert (Hf1 : kill_now (killer s1) = false).
    { unfold s1. rewrite kill_now_awaited. cbn [clock log]. now rewrite H0. }
    assert (Hc1 : clock s1 = S (clock s)).
    { unfold s1. now rewrite clock_awaited. }
    destruct (IH xs s1 Hf1) as (s' & Hrun & Htr).
    + lia.
    + intros i Hi. rewrite Hc1. replace (S (clock s) + i)%nat with (clock s + S i)%nat by lia.
      apply Hquiet. lia.
    + rewrite Hc1. now replace (S (clock s) + k)%nat with (clock s + S k)%nat by lia.
    + exists s'. split; [exact Hrun|].
      rewrite Htr. unfold s1. rewrite trace_awaited. cbn [trace log clock].
      rewrite H0. rewrite !actions_app. simpl.
      rewrite <- !app_assoc. reflexivity.
Qed.

(** X9: the idle loop ends at the first read of the flag that gives true: when
    no signal arrives during its first [k] pauses and one arrives during
    the next pause, it makes [k + 1] pauses, each after a read that gave
    false, reads the flag once more and ends there. *)
Theorem idle_stops (k : nat) (s : State) :
  kill_now (killer s) = false ->
  (S k < 600)%nat ->
  (forall i, (i < k)%nat -> signals w (clock s + i) = []) ->
  signals w (clock s + k) <> [] ->
  exists s',
    idle w s = (Normal tt, s') /\
    actions (trace s') =
      actions (trace s) ++
      List.concat (repeat [ECheck false; ESleep 1] (S k)) ++ [ECheck true].
Proof.
  intros Hf Hk Hquiet Hsig. unfold idle.
  apply rounds_stop; auto.
Qed.

(** X10: with the flag already set, the idle loop reads it once and makes no
    pause. *)
Theorem idle_skipped (s : State) :
  kill_now (killer s) = true ->
  idle w s = (Normal tt, log (ECheck true) s).
Proof.
  intros Hf. unfold idle.
  destruct (range 600) as [|x xs] eqn:Hr; [vm_compute in Hr; discriminate|].
  cbn [for_]. now rewrite idle_round_run, Hf.
Qed.

End Idle.

(** ** Bounds on a run *)

Section Costs.

Variable w : World.
Variable RTC_TOPIC : string -> string.
Variable SPORT_CMD : string -> Z.
Variable json_loads : string -> option pyobj.

(** A weight that does not count handler runs, reads of the flag and
    logged errors. *)
Variable f : Event -> Z.
Hypothesis f_nonneg : forall e, 0 <= f e.
Hypothesis f_signal : forall sg, f (ESignal sg) = 0.
Hypothesis f_check : forall b, f (ECheck b) = 0.
Hypothesis f_log : forall h e, f (ELogError h e) = 0.

Ltac f_lia :=
  repeat match goal with
         | |- context [f ?e] =>
             lazymatch goal with
             | H : 0 <= f e |- _ => fail
             | _ => pose proof (f_nonneg e)
             end
         end;
  lia.

Lemma measure_app (t u : list Event) : measure f (t ++ u) = measure f t + measure f u.
Proof. unfold measure. induction t as [|e t IH]; simpl; [reflexivity|]. rewrite IH. lia. Qed.

Lemma measure_signals (l : list signum) : measure f (map ESignal l) = 0.
Proof.
  unfold measure. induction l as [|sg l IH]; simpl; [reflexivity|].
  rewrite IH, f_signal. reflexivity.
Qed.

Lemma measure_log (e : Event) (s : State) :
  measure f (trace (log e s)) = measure f (trace s) + f e.
Proof. cbn [trace log]. rewrite measure_app. unfold measure. simpl. lia. Qed.

Lemma measure_awaited (e : Event) (s : State) :
  measure f (trace (awaited w e s)) = measure f (trace s) + f e.
Proof.
  rewrite trace_awaited, measure_app.
  change (e :: map ESignal (signals w (clock s)))
    with ([e] ++ map ESignal (signals w (clock s))).
  rewrite measure_app, measure_signals. unfold measure. simpl. lia.
Qed.

Lemma measure_retry (d : Z) (t : list Event) :
  Forall (retry_event d) t ->
  measure f t =
  Z.of_nat (count is_connect t) * f EConnect + Z.of_nat (count is_sleep t) * f (ESleep d).
Proof.
  induction 1 as [|e t He Ht IH]; [reflexivity|].
  change (measure f (e :: t)) with (f e + measure f t).
  rewrite IH, !count_cons.
  destruct He as [->|[->|He]].
  - cbn [is_connect is_sleep]. lia.
  - cbn [is_connect is_sleep]. lia.
  - destruct e; try discriminate. rewrite f_signal. cbn [is_connect is_sleep]. lia.
Qed.

Lemma costs_zero {R A : Type} (m : M R A) :
  (forall s, trace (snd (m s)) = trace s) -> costs f m 0.
Proof. intros H. split; [lia|]. intros s. rewrite H. lia. Qed.

Lemma costs_weaken {R A : Type} (m : M R A) (n n' : Z) :
  costs f m n -> n <= n' -> costs f m n'.
Proof. intros [H0 H] Hle. split; [lia|]. intros s. specialize (H s). lia. Qed.

Lemma costs_bind {R A B : Type} (m : M R A) (k : A -> M R B) (n1 n2 : Z) :
  costs f m n1 -> (forall a, costs f (k a) n2) -> 0 <= n2 -> costs f (bind m k) (n1 + n2).
Proof.
  intros [H1 Hm] Hk H2. split; [lia|]. intros s. unfold bind. specialize (Hm s).
  destruct (m s) as [[a| |r|e] s1]; simpl in *; try lia.
  destruct (Hk a) as [_ Hka]. specialize (Hka s1). lia.
Qed.

Lemma costs_if {R A : Type} (b : bool) (x y : M R A) (n : Z) :
  costs f x n -> costs f y n -> costs f (if b then x else y) n.
Proof. destruct b; auto. Qed.

Lemma costs_ret {R A : Type} (a : A) : costs f (@ret R A a) 0.
Proof. now apply costs_zero. Qed.

Lemma costs_return {R A : Type} (r : R) : costs f (@return_ R A r) 0.
Proof. now apply costs_zero. Qed.

Lemma costs_lift {R A : Type} (v : exn + A) : costs f (@lift R A v) 0.
Proof. apply costs_zero. intros s. now destruct v. Qed.

Lemma costs_emit {R : Type} (e : Event) : costs f (@emit R e) (f e).
Proof. split; [apply f_nonneg|]. intros s. unfold emit. cbn [snd]. rewrite measure_log. lia. Qed.

Lemma costs_sleep {R : Type} (d : Z) : costs f (@sleep w R d) (f (ESleep d)).
Proof.
  split; [apply f_nonneg|]. intros s. rewrite sleep_run. cbn [snd].
  rewrite measure_awaited. lia.
Qed.

Lemma costs_wait {R : Type} (c : Go2WebRTCConnection) (t : Z) :
  costs f (@wait_datachannel_open w R c t) (f (EWaitOpen t)).
Proof.
  split; [apply f_nonneg|]. intros s. rewrite wait_run. cbn [snd].
  rewrite measure_awaited. lia.
Qed.

Lemma costs_publish {R : Type} (c : Go2WebRTCConnection) (tp : string) (pl : pyobj) :
  costs f (@publish_request_new w R c tp pl) (f (EPublish tp pl)).
Proof.
  split; [apply f_nonneg|]. intros s. rewrite publish_run. cbn [snd].
  unfold count_publish. cbn [trace]. rewrite measure_awaited. lia.
Qed.

Lemma costs_check : costs f check_kill_now 0.
Proof.
  split; [lia|]. intros s. unfold check_kill_now, bind, read_kill_now.
  destruct (kill_now (killer s)); cbv beta iota delta [return_ ret snd];
    rewrite measure_log, f_check; lia.
Qed.

Lemma costs_idle_round (i : Z) : costs f (idle_round w i) (f (ESleep 1)).
Proof.
  split; [apply f_nonneg|]. intros s. rewrite idle_round_run.
  destruct (kill_now (killer s)); cbn [snd].
  - rewrite measure_log, f_check. f_lia.
  - rewrite measure_awaited, measure_log, f_check. lia.
Qed.

Lemma costs_for {R X : Type} (xs : list X) (body : X -> M R unit) (b : Z) :
  (forall x, costs f (body x) b) ->
  0 <= b ->
  costs f (for_ xs body) (Z.of_nat (List.length xs) * b).
Proof.
  intros Hb H0. split; [nia|].
  induction xs as [|x xs IH]; intros s.
  - simpl. lia.
  - cbn [for_]. destruct (Hb x) as [_ Hx]. specialize (Hx s).
    destruct (body x s) as [[[]| |r|e] s1]; cbn [snd] in *;
      try (cbn [List.length]; nia).
    specialize (IH s1). cbn [List.length]. nia.
Qed.

Lemma costs_try_except {R A : Type} (body : M R A) (handlers : exn -> option (M R A))
    (n1 n2 : Z) :
  costs f body n1 ->
  (forall e h, handlers e = Some h -> costs f h n2) ->
  0 <= n2 ->
  costs f (try_except body handlers) (n1 + n2).
Proof.
  intros [H1 Hb] Hh H2. split; [lia|]. intros s. unfold try_except. specialize (Hb s).
  destruct (body s) as [[a| |r|e] s1]; cbn [snd] in *; try lia.
  destruct (handlers e) as [h|] eqn:He; cbn [snd]; [|lia].
  destruct (Hh e h He) as [_ Hhe]. specialize (Hhe s1). lia.
Qed.

Lemma costs_try_finally {R A : Type} (body : M R A) (fin : M R unit) (n1 n2 : Z) :
  costs f body n1 -> costs f fin n2 -> costs f (try_finally body fin) (n1 + n2).
Proof.
  intros [H1 Hb] [H2 Hf]. split; [lia|]. intros s. unfold try_finally. specialize (Hb s).
  destruct (body s) as [o s1]. cbn [snd] in Hb. specialize (Hf s1).
  destruct (fin s1) as [[[]| |r|e] s2]; cbn [snd] in *; lia.
Qed.

Lemma costs_call {R R' : Type} (body : M R R) (n : Z) :
  costs f body n -> costs f (@call R R' body) n.
Proof.
  intros [H0 Hb]. split; [exact H0|]. intros s. unfold call. specialize (Hb s).
  destruct (body s) as [[a| |r|e] s1]; cbn [snd] in *; lia.
Qed.

Lemma costs_connect_with_retry {R : Type} (c : Go2WebRTCConnection) (n d : Z) :
  costs f (@connect_with_retry w R c n d)
    (Z.of_nat (Z.to_nat n) * f EConnect + Z.of_nat (Z.to_nat n - 1) * f (ESleep d)).
Proof.
  pose proof (f_nonneg EConnect). pose proof (f_nonneg (ESleep d)).
  split; [nia|]. intros s.
  destruct (connect_with_retry_trace w R c n d s)
    as (o & s' & t & Hrun & Htr & Hall & Hcn & Hsl & _).
  rewrite Hrun. cbn [snd]. rewrite Htr, measure_app, (measure_retry d t Hall). nia.
Qed.

Ltac cost_chain :=
  repeat match goal with
         | |- costs _ _ _ =>
             first
               [ apply costs_publish | apply costs_sleep | apply costs_check
               | apply costs_wait | apply costs_lift | apply costs_ret
               | apply costs_return | apply costs_emit
               | eapply costs_bind; [ | intros ? | ] ]
         end.

Lemma costs_query (c : Go2WebRTCConnection) :
  costs f (query_motion_mode w RTC_TOPIC json_loads c)
    (f (EPublish (RTC_TOPIC "MOTION_SWITCHER") query_payload)).
Proof.
  unfold query_motion_mode.
  eapply costs_weaken.
  - eapply costs_bind; [apply costs_publish|intros response|].
    + eapply costs_bind; [apply costs_lift|intros code|].
      * apply costs_if with (n := 0); [|apply costs_ret].
        eapply costs_weaken.
        -- eapply costs_bind; [apply costs_lift|intros data|].
           ++ eapply costs_bind; [apply costs_lift|intros name|].
              ** now apply costs_zero.
              ** lia.
           ++ lia.
        -- lia.
      * lia.
    + lia.
  - lia.
Qed.

Lemma costs_switch (c : Go2WebRTCConnection) :
  costs f (switch_to_normal w RTC_TOPIC c)
    (f (EPublish (RTC_TOPIC "MOTION_SWITCHER") (switch_payload "normal")) + f (ESleep 5)).
Proof.
  unfold switch_to_normal.
  eapply costs_weaken.
  - eapply costs_bind with (n1 := 0); [|intros mode|].
    + apply costs_zero. intros s. unfold load_current_mode.
      now destruct (current_motion_switcher_mode s).
    + apply costs_if.
      * eapply costs_bind; [apply costs_publish|intros ?; apply costs_sleep|apply f_nonneg].
      * eapply costs_weaken; [apply costs_ret|f_lia].
    + f_lia.
  - lia.
Qed.

Lemma costs_movements (c : Go2WebRTCConnection) :
  costs f (movements w RTC_TOPIC SPORT_CMD c)
    (f (EPublish (RTC_TOPIC "SPORT_MOD") (hello_payload SPORT_CMD)) + f (ESleep 1) +
     f (EPublish (RTC_TOPIC "SPORT_MOD") (move_payload SPORT_CMD (1 # 2))) + f (ESleep 3) +
     f (EPublish (RTC_TOPIC "SPORT_MOD") (move_payload SPORT_CMD (-1 # 2))) + f (ESleep 3)).
Proof.
  unfold movements.
  eapply costs_weaken; [cost_chain; f_lia|lia].
Qed.

Lemma costs_ai_mode (c : Go2WebRTCConnection) :
  costs f (ai_mode w RTC_TOPIC SPORT_CMD c)
    (f (EPublish (RTC_TOPIC "MOTION_SWITCHER") (switch_payload "ai")) + f (ESleep 10) +
     f (EPublish (RTC_TOPIC "SPORT_MOD") (standout_payload SPORT_CMD true)) + f (ESleep 5) +
     f (EPublish (RTC_TOPIC "SPORT_MOD") (standout_payload SPORT_CMD false))).
Proof.
  unfold ai_mode.
  eapply costs_weaken; [cost_chain; f_lia|lia].
Qed.

Lemma costs_idle : costs f (idle w) (600 * f (ESleep 1)).
Proof.
  unfold idle.
  eapply costs_weaken; [apply costs_for; [apply costs_idle_round|apply f_nonneg]|].
  change (Z.of_nat (List.length (range 600))) with 600. lia.
Qed.

Lemma costs_script :
  costs f (script w RTC_TOPIC SPORT_CMD json_loads) (run_cost f RTC_TOPIC SPORT_CMD).
Proof.
  assert (Hseq : forall c, costs f (command_sequence w RTC_TOPIC SPORT_CMD json_loads c)
            (f (EPublish (RTC_TOPIC "MOTION_SWITCHER") query_payload) +
             f (EPublish (RTC_TOPIC "MOTION_SWITCHER") (switch_payload "normal")) +
             f (ESleep 5) +
             f (EPublish (RTC_TOPIC "SPORT_MOD") (hello_payload SPORT_CMD)) + f (ESleep 1) +
             f (EPublish (RTC_TOPIC "SPORT_MOD") (move_payload SPORT_CMD (1 # 2))) +
             f (ESleep 3) +
             f (EPublish (RTC_TOPIC "SPORT_MOD") (move_payload SPORT_CMD (-1 # 2))) +
             f (ESleep 3) +
             f (EPublish (RTC_TOPIC "MOTION_SWITCHER") (switch_payload "ai")) +
             f (ESleep 10) +
             f (EPublish (RTC_TOPIC "SPORT_MOD") (standout_payload SPORT_CMD true)) +
             f (ESleep 5) +
             f (EPublish (RTC_TOPIC "SPORT_MOD") (standout_payload SPORT_CMD false)) +
             600 * f (ESleep 1))).
  { intros c. unfold command_sequence, normal_mode.
    eapply costs_weaken.
    - eapply costs_bind;
        [eapply costs_bind; [apply costs_query|intros ?; apply costs_switch|f_lia]
        |intros ?|].
      + eapply costs_bind; [apply costs_check|intros ?|].
        * eapply costs_bind; [apply costs_movements|intros ?|].
          -- eapply costs_bind; [apply costs_ai_mode|intros ?; apply costs_idle|f_lia].
          -- f_lia.
        * f_lia.
      + f_lia.
    - lia. }
  assert (Hest : costs f (establish w) (3 * f EConnect + 2 * f (ESleep 5) + f (EWaitOpen 30))).
  { unfold establish.
    eapply costs_weaken.
    - eapply costs_bind with (n1 := 0); [|intros c|].
      + apply costs_zero. intros s. unfold construct_connection. now destruct (construct w).
      + eapply costs_bind; [apply costs_connect_with_retry|intros ok|].
        * eapply costs_bind with (n1 := 0);
            [apply costs_if; [apply costs_return|apply costs_ret]|intros ?|].
          -- cost_chain; f_lia.
          -- f_lia.
        * f_lia.
      + f_lia.
    - change (Z.of_nat (Z.to_nat 3)) with 3. change (Z.of_nat (Z.to_nat 3 - 1)) with 2. lia. }
  assert (Hfin : costs f (main_finally w) (f ECleanup + f (ESleep 1))).
  { split; [f_lia|]. intros s. rewrite main_finally_run.
    destruct (conn s); cbn [snd]; [|f_lia].
    rewrite measure_awaited, measure_log. lia. }
  unfold script, run_cost.
  eapply costs_weaken.
  - eapply costs_try_finally with (n2 := 0); [|now apply costs_zero].
    eapply costs_try_except with (n2 := 0); [| |lia].
    + unfold main. apply costs_call.
      eapply costs_bind with (n1 := 0); [now apply costs_zero|intros ?|].
      * eapply costs_try_finally; [|exact Hfin].
        eapply costs_try_except with (n2 := 0); [| |lia].
        -- unfold main_try.
           eapply costs_bind; [exact Hest|intros c; apply Hseq|f_lia].
        -- intros e h He. unfold main_except in He.
           assert (Hh : exists hd, h = emit (ELogError hd e)).
           { destruct (is_TimeoutError e); [injection He as He; subst h; eauto|].
             destruct (is_ConnectionError e); [injection He as He; subst h; eauto|].
             destruct (is_Exception e); [injection He as He; subst h; eauto|].
             discriminate. }
           destruct Hh as [hd ->].
           eapply costs_weaken; [apply costs_emit|]. rewrite f_log. lia.
      * f_lia.
    + intros e h He.
      assert (Hh : h = ret tt \/ h = emit (ELogError HFatal e)).
      { destruct e; simpl in He; try discriminate; injection He as He; subst h; auto. }
      destruct Hh as [-> | ->]; [apply costs_ret|].
      eapply costs_weaken; [apply costs_emit|]. rewrite f_log. lia.
  - lia.
Qed.

End Costs.

Lemma measure_count (p : Event -> bool) (t : list Event) :
  measure (fun e => if p e then 1 else 0) t = Z.of_nat (count p t).
Proof.
  unfold measure, count. induction t as [|e t IH]; [reflexivity|].
  cbn [fold_right filter]. rewrite IH. destruct (p e); cbn [List.length]; lia.
Qed.

(** X11: whatever the world does, a run issues at most 8 requests, attempts to
    connect at most 3 times, and asks [asyncio.sleep] for at most 638
    units of time in all. *)
Theorem run_bounds (w : World) (RTC_TOPIC : string -> string)
    (SPORT_CMD : string -> Z) (json_loads : string -> option pyobj) :
  let t := trace (snd (script w RTC_TOPIC SPORT_CMD json_loads boot)) in
  (count is_publish t <= 8)%nat /\
  (count is_connect t <= 3)%nat /\
  measure pause_weight t <= 638.
Proof.
  cbv zeta. split; [|split].
  - destruct (costs_script w RTC_TOPIC SPORT_CMD json_loads request_weight) as [_ H];
      try reflexivity.
    { intros e. unfold request_weight. destruct (is_publish e); lia. }
    specialize (H boot). unfold request_weight in H at 1. rewrite measure_count in H.
    change (measure request_weight (trace boot) + run_cost request_weight RTC_TOPIC SPORT_CMD)
      with 8 in H. lia.
  - destruct (costs_script w RTC_TOPIC SPORT_CMD json_loads attempt_weight) as [_ H];
      try reflexivity.
    { intros e. unfold attempt_weight. destruct (is_connect e); lia. }
    specialize (H boot). unfold attempt_weight in H at 1. rewrite measure_count in H.
    change (measure attempt_weight (trace boot) + run_cost attempt_weight RTC_TOPIC SPORT_CMD)
      with 3 in H. lia.
  - destruct (costs_script w RTC_TOPIC SPORT_CMD json_loads pause_weight) as [_ H];
      try reflexivity.
    { intros e. unfold pause_weight. destruct e; lia. }
    exact (H boot).
Qed.

(** The three bounds are reached: a device that connects at the third
    attempt and is in mode "ai", in a world without signals. *)
Example run_bounds_reached :
  let t := trace (snd (Sample.run (Sample.quiet
             {| connect_outcome := fun k => if (k <? 2)%nat then Some ConnectionError else None;
                wait_datachannel_open_outcome := None;
                publish_request_new_outcome :=
                  fun _ => inr (Sample.response 0 (Sample.mode_json "ai")) |}))) in
  count is_publish t = 8%nat /\ count is_connect t = 3%nat /\ measure pause_weight t = 638.
Proof. vm_compute. repeat split. Qed.

(** ** These properties on sample runs *)

(** An attempt that raises [CancelledError]: that is what escapes. *)
Lemma connect_with_retry_escape_witness :
  is_Exception CancelledError = false /\
  exists k, (k < Z.to_nat 3)%nat /\
            connect_outcome (Sample.flaky 1 CancelledError) (connects boot + k)
            = Some CancelledError.
Proof.
  apply (connect_with_retry_escape (Sample.quiet (Sample.flaky 1 CancelledError))
           (Sample.flaky 1 CancelledError) 3 5 unit boot
           (snd (@connect_with_retry (Sample.quiet (Sample.flaky 1 CancelledError)) unit
                   (Sample.flaky 1 CancelledError) 3 5 boot))).
  reflexivity.
Defined.

(** A data channel that does not open: the timeout clause logs, the
    cleanup runs, [main] returns. *)
Lemma main_on_exception_witness :
  exists s',
    @main (Sample.quiet Sample.stalled) Sample.RTC_TOPIC Sample.SPORT_CMD
      Sample.json_loads unit boot = (Normal tt, s') /\
    trace s' = [EConnect; EWaitOpen 30; ELogError HTimeout TimeoutError; ECleanup; ESleep 1].
Proof.
  apply (main_on_exception (Sample.quiet Sample.stalled) Sample.RTC_TOPIC Sample.SPORT_CMD
           Sample.json_loads boot
           (snd (main_try (Sample.quiet Sample.stalled) Sample.RTC_TOPIC Sample.SPORT_CMD
                   Sample.json_loads (snd (@enter_main unit boot))))
           TimeoutError).
  reflexivity.
Defined.

(** A device that never connects. *)
Lemma main_gives_up_witness :
  exists s',
    @main (Sample.quiet (Sample.flaky 5 ConnectionError)) Sample.RTC_TOPIC Sample.SPORT_CMD
      Sample.json_loads unit boot = (Normal tt, s') /\
    actions (trace s') =
      actions (trace boot) ++
      [EConnect; ESleep 5; EConnect; ESleep 5; EConnect; ECleanup; ESleep 1].
Proof.
  apply (main_gives_up (Sample.quiet (Sample.flaky 5 ConnectionError)) Sample.RTC_TOPIC
           Sample.SPORT_CMD Sample.json_loads boot (Sample.flaky 5 ConnectionError)).
  - reflexivity.
  - intros k Hk. exists ConnectionError. simpl.
    destruct k as [|[|[|k]]]; [split; reflexivity..|lia].
Defined.

(** The mode step on a device in mode "ai". *)
Lemma normal_mode_completes_witness :
  exists response code name,
    publish_request_new_outcome (Sample.device "ai") (publishes boot) = inr response /\
    status_code response = inr code /\
    py_eq_int code 0 = true /\
    current_motion_switcher_mode
      (snd (normal_mode (Sample.quiet (Sample.device "ai")) Sample.RTC_TOPIC
              Sample.json_loads (Sample.device "ai") boot)) = Some name.
Proof.
  apply (normal_mode_completes (Sample.quiet (Sample.device "ai")) Sample.RTC_TOPIC
           Sample.json_loads (Sample.device "ai") boot
           (snd (normal_mode (Sample.quiet (Sample.device "ai")) Sample.RTC_TOPIC
                   Sample.json_loads (Sample.device "ai") boot))).
  - reflexivity.
  - reflexivity.
Defined.

(** A SIGINT during the first attempt to connect: no request. *)
Lemma early_signal_no_request_witness :
  let t := trace (snd (Sample.run (Sample.interrupted (Sample.device "normal") 0))) in
  t = [EConnect; ESignal SIGINT; EWaitOpen 30; ECheck true; ECleanup; ESleep 1] /\
  ~ In (EPublish (Sample.RTC_TOPIC "MOTION_SWITCHER") query_payload) t.
Proof.
  cbv zeta. split; [reflexivity|].
  apply (early_signal_no_request (Sample.interrupted (Sample.device "normal") 0)
           Sample.RTC_TOPIC Sample.SPORT_CMD Sample.json_loads
           [EConnect] [EWaitOpen 30; ECheck true; ECleanup; ESleep 1] SIGINT).
  - reflexivity.
  - intros b [H|[]]. discriminate.
Defined.

(** A SIGINT during the third idle pause: three pauses, then the read that
    ends the loop. *)
Lemma idle_stops_witness :
  exists s',
    idle (Sample.interrupted (Sample.device "normal") 2) boot = (Normal tt, s') /\
    actions (trace s') =
      actions (trace boot) ++
      [ECheck false; ESleep 1; ECheck false; ESleep 1; ECheck false; ESleep 1] ++
      [ECheck true].
Proof.
  apply (idle_stops (Sample.interrupted (Sample.device "normal") 2) 2 boot).
  - reflexivity.
  - lia.
  - intros i Hi. simpl. destruct i as [|[|i]]; [reflexivity..|lia].
  - simpl. discriminate.
Defined.

(** The idle loop entered after a SIGINT. *)
Lemma idle_skipped_witness :
  idle (Sample.quiet (Sample.device "normal")) (handle boot SIGINT)
  = (Normal tt, log (ECheck true) (handle boot SIGINT)).
Proof.
  apply (idle_skipped (Sample.quiet (Sample.device "normal")) (handle boot SIGINT)).
  reflexivity.
Defined.

(** ** How a run ends *)

Section RunEnds.

Variable w : World.
Variable RTC_TOPIC : string -> string.
Variable SPORT_CMD : string -> Z.
Variable json_loads : string -> option pyobj.

(** [main] after its [try] has raised [e] in state [s2]. *)
Lemma main_after_raise (s0 s2 : State) (e : exn) :
  main_try w RTC_TOPIC SPORT_CMD json_loads (snd (@enter_main unit s0)) = (Raised e, s2) ->
  exists s',
    @main w RTC_TOPIC SPORT_CMD json_loads unit s0 =
      ((if is_Exception e then Normal tt else Raised e), s') /\
    trace s' =
      trace s2 ++
      (if is_Exception e then [ELogError (handler_for e) e] else []) ++
      match conn s2 with
      | Some _ => ECleanup :: ESleep 1 :: map ESignal (signals w (clock s2))
      | None => []
      end.
Proof.
  intros Htry. unfold main, call, bind.
  change (@enter_main unit s0) with (@Normal unit unit tt, snd (@enter_main unit s0)).
  cbv iota. unfold try_finally, try_except at 1. rewrite Htry.
  destruct (is_Exception e) eqn:He.
  - rewrite (main_except_run e He). cbn [emit].
    pose proof (trace_main_finally w (log (ELogError (handler_for e) e) s2)) as Htr.
    pose proof (main_finally_normal w (log (ELogError (handler_for e) e) s2)) as Hn.
    destruct (main_finally w (log (ELogError (handler_for e) e) s2)) as [o s3].
    simpl in Hn. subst o. exists s3. split; [reflexivity|].
    simpl in Htr. rewrite Htr, <- app_assoc. reflexivity.
  - rewrite (main_except_base e He).
    pose proof (trace_main_finally w s2) as Htr.
    pose proof (main_finally_normal w s2) as Hn.
    destruct (main_finally w s2) as [o s3].
    simpl in Hn. subst o. exists s3. split; [reflexivity|].
    simpl in Htr. exact Htr.
Qed.

(** The module body leaves the state as [main] left it. *)
Lemma script_state (s : State) :
  snd (script w RTC_TOPIC SPORT_CMD json_loads s) =
  snd (@main w RTC_TOPIC SPORT_CMD json_loads unit s).
Proof.
  unfold script, try_finally, sys_exit, raise, try_except.
  pose proof (main_outcome w RTC_TOPIC SPORT_CMD json_loads unit s) as Hout.
  destruct (@main w RTC_TOPIC SPORT_CMD json_loads unit s) as [[[]| |[]|e] s1];
    try reflexivity.
  specialize (Hout e eq_refl).
  destruct e; simpl in Hout; try discriminate; reflexivity.
Qed.

(** When the constructor raises, nothing is cleaned up. *)
Lemma cleanup_without_connection (e : exn) :
  construct w = inl e ->
  count is_cleanup (trace (snd (script w RTC_TOPIC SPORT_CMD json_loads boot))) = 0%nat.
Proof.
  intros Hc. rewrite script_state.
  assert (Htry : main_try w RTC_TOPIC SPORT_CMD json_loads (snd (@enter_main unit boot))
                 = (Raised e, snd (@enter_main unit boot))).
  { unfold main_try, establish, bind, construct_connection. now rewrite Hc. }
  destruct (main_after_raise boot _ e Htry) as (s' & Hm & Htr). rewrite Hm.
  cbn [snd]. rewrite Htr. destruct (is_Exception e); reflexivity.
Qed.

(** C7, as the code has it: whatever the world does (normal completion, a
    set flag, an exception raised anywhere, a request that raises), the
    module body ends in [sys.exit(0)] and the process leaves with status
    0; the cleanup block runs exactly once when the connection object is
    there, and not at all when the constructor itself raised ([conn] is
    then [None]).  An exception that leaves the [try] of [main] is caught
    there exactly when it is an [Exception], and [main] then returns;
    when it is not an [Exception] ([KeyboardInterrupt], [SystemExit],
    [CancelledError]) it leaves [main]. *)
Theorem script_exits_zero :
  let r := script w RTC_TOPIC SPORT_CMD json_loads boot in
  let m := @main w RTC_TOPIC SPORT_CMD json_loads unit boot in
  fst r = Raised (SystemExit 0) /\
  exit_status (fst r) = 0 /\
  count is_cleanup (trace (snd r)) =
    match construct w with
    | inr _ => 1%nat
    | inl _ => 0%nat
    end /\
  (forall e, fst m = Raised e -> is_Exception e = false) /\
  (forall e s2,
     main_try w RTC_TOPIC SPORT_CMD json_loads (snd (@enter_main unit boot)) = (Raised e, s2) ->
     fst m = if is_Exception e then Normal tt else Raised e).
Proof.
  cbv zeta. split; [apply script_outcome|]. split; [now rewrite script_outcome|].
  split; [|split].
  - destruct (construct w) as [e|c] eqn:Hc.
    + now apply cleanup_without_connection with (e := e).
    + now apply cleanup_script with (c := c).
  - intros e. apply main_outcome.
  - intros e s2 Htry. destruct (main_after_raise boot s2 e Htry) as (s' & -> & _).
    reflexivity.
Qed.

End RunEnds.

(** C7 as stated fails: a request that raises [CancelledError], which is
    not an [Exception], is caught by none of the clauses of [main]: it is
    not logged and it leaves [main] (after the cleanup). *)
Lemma unlogged_exception_leaves_main :
  let m := @main (Sample.quiet (Sample.broken CancelledError)) Sample.RTC_TOPIC
             Sample.SPORT_CMD Sample.json_loads unit boot in
  fst m = Raised CancelledError /\
  trace (snd m) =
    [EConnect; EWaitOpen 30; ECheck false;
     EPublish "rt/api/motion_switcher/request" (PyDict [("api_id", PyInt 1001)]);
     ECleanup; ESleep 1] /\
  ~ (forall e, fst m <> Raised e).
Proof.
  cbv zeta. split; [reflexivity|]. split; [reflexivity|].
  intros H. now apply (H CancelledError).
Qed.

(** C7 as the code has it, on a device whose requests raise
    [ConnectionError]: status 0, one cleanup, and [main] returns. *)
Lemma script_exits_zero_witness :
  let w := Sample.quiet (Sample.broken ConnectionError) in
  let r := Sample.run w in
  exit_status (fst r) = 0 /\
  count is_cleanup (trace (snd r)) = 1%nat /\
  fst (@main w Sample.RTC_TOPIC Sample.SPORT_CMD Sample.json_loads unit boot) = Normal tt.
Proof.
  cbv zeta.
  pose proof (script_exits_zero (Sample.quiet (Sample.broken ConnectionError))
                Sample.RTC_TOPIC Sample.SPORT_CMD Sample.json_loads) as H.
  cbv zeta in H. destruct H as (_ & Hexit & Hclean & _ & Hraise).
  split; [exact Hexit|]. split; [exact Hclean|].
  exact (Hraise ConnectionError
           (snd (main_try (Sample.quiet (Sample.broken ConnectionError)) Sample.RTC_TOPIC
                   Sample.SPORT_CMD Sample.json_loads (snd (@enter_main unit boot))))
           eq_refl).
Defined.

(** The constructor raises: no cleanup, status 0. *)
Example cleanup_skipped_without_connection :
  let r := Sample.run {| construct := inl (OtherException "no token");
                         signals := fun _ => [] |} in
  exit_status (fst r) = 0 /\
  trace (snd r) = [ELogError HUnexpected (OtherException "no token")].
Proof. split; reflexivity. Qed.
